(** * Cooking-recipes agent: a shallow embedding of [recipes.py],
    [formatters.py] and [agent.py], and the properties of its retry loop,
    its provider and its orchestrator. *)

From Stdlib Require Import String Ascii List ZArith Lia Bool.
From Stdlib Require Import DecimalString SpecFloat.
Import ListNotations.

Set Warnings "-register-all".

Local Open Scope string_scope.
Local Open Scope list_scope.
Local Open Scope Z_scope.

(** [++] is kept for lists; strings are appended with [+++]. *)
Infix "+++" := String.append (right associativity, at level 60).

(** ** Python values

    The values that [json.loads] and [response.json()] can produce, plus
    what the program builds from them.  A [dict] keeps insertion order, so
    it is an association list; lookup takes the first binding of a key.
    A [str] is modelled by the [string] of its UTF-8 bytes; [chars] below
    cuts it into its characters. *)

Inductive pyval : Type :=
| PNone
| PBool (b : bool)
| PInt (z : Z)
| PFloat (f : spec_float)
| PStr (s : string)
| PList (l : list pyval)
| PDict (d : list (string * pyval)).

(** ** Exceptions

    [JSONDecodeError] stands for every instance of
    [json.decoder.JSONDecodeError]; [Exception] is the bare [Exception(msg)]
    the provider raises; [OtherError] is anything else a collaborator may
    raise (a transport failure, say). *)

Inductive exn : Type :=
| JSONDecodeError (msg : string)
| KeyError (key : pyval)
| IndexError
| TypeError
| AttributeError
| Exception (msg : string)
| OtherError (name msg : string).

Definition is_JSONDecodeError (e : exn) : bool :=
  match e with
  | JSONDecodeError _ => true
  | _ => false
  end.

Inductive outcome (A : Type) : Type :=
| Return (a : A)
| Raise (e : exn).

Arguments Return {A} a.
Arguments Raise {A} e.

Definition returned {A} (o : outcome A) : bool :=
  match o with
  | Return _ => true
  | Raise _ => false
  end.

(** ** The interpreter's builtins

    [json.loads], [repr] and [str] on an exception belong to Python, not to
    this repository; they are taken as they come. *)

Class Interpreter : Type := {
  json_loads : string -> outcome pyval;
  py_repr : pyval -> string;
  exn_str : exn -> string
}.

(** ** A state and exception monad *)

Definition SE (S A : Type) : Type := S -> outcome A * S.

Definition ret {S A} (a : A) : SE S A := fun s => (Return a, s).

Definition raise {S A} (e : exn) : SE S A := fun s => (Raise e, s).

Definition bind {S A B} (m : SE S A) (k : A -> SE S B) : SE S B :=
  fun s =>
    match m s with
    | (Return a, s') => k a s'
    | (Raise e, s') => (Raise e, s')
    end.

Definition lift {S A} (o : outcome A) : SE S A := fun s => (o, s).

(** [try m except e: h e] *)
Definition try_except {S A} (m : SE S A) (h : exn -> SE S A) : SE S A :=
  fun s =>
    match m s with
    | (Return a, s') => (Return a, s')
    | (Raise e, s') => h e s'
    end.

Declare Scope se_scope.
Delimit Scope se_scope with se.
Notation "x <- m ;; k" := (bind m (fun x => k))
  (at level 61, m at next level, right associativity) : se_scope.
Notation "m ;;; k" := (bind m (fun _ => k))
  (at level 61, right associativity) : se_scope.
Local Open Scope se_scope.

(** Bind and map on plain outcomes, for code that has no effect but may
    raise. *)

Definition obind {A B} (o : outcome A) (k : A -> outcome B) : outcome B :=
  match o with
  | Return a => k a
  | Raise e => Raise e
  end.

Fixpoint omap {A B} (f : A -> outcome B) (l : list A) : outcome (list B) :=
  match l with
  | [] => Return []
  | x :: xs =>
      obind (f x) (fun y => obind (omap f xs) (fun ys => Return (y :: ys)))
  end.

(** ** Builtin operations on values *)

Definition str_of_int (z : Z) : string := NilZero.string_of_int (Z.to_int z).

(** A continuation byte of UTF-8: [10xxxxxx]. *)
Definition is_continuation (c : ascii) : bool :=
  match c with
  | Ascii _ _ _ _ _ _ b6 b7 => b7 && negb b6
  end.

Definition continues (s : string) : bool :=
  match s with
  | EmptyString => false
  | String c _ => is_continuation c
  end.

(** The characters of a string, as Python iterates over them: every byte
    that is not a continuation byte starts a character, and the
    continuation bytes that follow it belong to it. *)
Fixpoint chars (s : string) : list string :=
  match s with
  | EmptyString => []
  | String c rest =>
      if continues rest then
        match chars rest with
        | next :: more => String c next :: more
        | [] => [String c EmptyString]
        end
      else String c EmptyString :: chars rest
  end.

Fixpoint lookup (key : string) (d : list (string * pyval)) : option pyval :=
  match d with
  | [] => None
  | (k, v) :: d' => if String.eqb k key then Some v else lookup key d'
  end.

(** [v.get(key, default)]: only a dict has [get]. *)
Definition py_get (v : pyval) (key : string) (default : pyval) : outcome pyval :=
  match v with
  | PDict d =>
      match lookup key d with
      | Some x => Return x
      | None => Return default
      end
  | _ => Raise AttributeError
  end.

(** [v[key]] for a string key. *)
Definition py_getitem (v : pyval) (key : string) : outcome pyval :=
  match v with
  | PDict d =>
      match lookup key d with
      | Some x => Return x
      | None => Raise (KeyError (PStr key))
      end
  | _ => Raise TypeError
  end.

(** [v[0]]. The keys of a dict that came out of JSON are strings, so [0] is
    never one of them. *)
Definition py_getitem0 (v : pyval) : outcome pyval :=
  match v with
  | PList [] => Raise IndexError
  | PList (x :: _) => Return x
  | PStr s =>
      match chars s with
      | [] => Raise IndexError
      | c :: _ => Return (PStr c)
      end
  | PDict _ => Raise (KeyError (PInt 0))
  | _ => Raise TypeError
  end.

(** [for x in v]: the elements of a list, the characters of a string, the
    keys of a dict. *)
Definition py_iter (v : pyval) : outcome (list pyval) :=
  match v with
  | PList l => Return l
  | PStr s => Return (map PStr (chars s))
  | PDict d => Return (map (fun kv => PStr (fst kv)) d)
  | _ => Raise TypeError
  end.

(** [for x in a + b]: lists and strings concatenate; numbers add to a number,
    which is not iterable; every other pair has no [+].  All the failures are
    [TypeError]s. *)
Definition py_iter_add (a b : pyval) : outcome (list pyval) :=
  match a, b with
  | PList l1, PList l2 => Return (l1 ++ l2)
  | PStr s1, PStr s2 => Return (map PStr (chars (s1 +++ s2)))
  | _, _ => Raise TypeError
  end.

Fixpoint all_str (l : list pyval) : option (list string) :=
  match l with
  | [] => Some []
  | PStr s :: l' =>
      match all_str l' with
      | Some ss => Some (s :: ss)
      | None => None
      end
  | _ :: _ => None
  end.

(** [sep.join(v)]: [v] must be an iterable of strings. *)
Definition py_join (sep : string) (v : pyval) : outcome string :=
  match v with
  | PList l =>
      match all_str l with
      | Some ss => Return (String.concat sep ss)
      | None => Raise TypeError
      end
  | PStr s => Return (String.concat sep (chars s))
  | PDict d => Return (String.concat sep (map fst d))
  | _ => Raise TypeError
  end.

(** [str(v)] and [f"{v}"]: a string is itself, the other scalars print as
    Python prints them, floats and containers go through [repr]. *)
Definition py_str `{Interpreter} (v : pyval) : string :=
  match v with
  | PStr s => s
  | PNone => "None"
  | PBool true => "True"
  | PBool false => "False"
  | PInt z => str_of_int z
  | _ => py_repr v
  end.

Definition nl : string := String "010"%char EmptyString.

(** [enumerate(l)] *)
Fixpoint enumerate_from {A} (n : Z) (l : list A) : list (Z * A) :=
  match l with
  | [] => []
  | x :: xs => (n, x) :: enumerate_from (n + 1) xs
  end.

Definition enumerate {A} (l : list A) : list (Z * A) := enumerate_from 0 l.

(** ** recipes.py: the domain model *)

Module RecipeIngredient.

Record t : Type := new { title : pyval; image : pyval }.

Definition __str__ `{Interpreter} (self : t) : string :=
  py_repr (PDict [("title", title self); ("image", image self)]).

End RecipeIngredient.

Module RecipeInstruction.

Record t : Type := new { step : pyval }.

(** [__str__] returns [self.step] as it is; [str()] raises [TypeError] when
    that is not a string. *)
Definition __str__ (self : t) : outcome string :=
  match step self with
  | PStr s => Return s
  | _ => Raise TypeError
  end.

End RecipeInstruction.

Module Recipe.

Record t : Type := new {
  title : pyval;
  likes : pyval;
  image : pyval;
  ingredients : list RecipeIngredient.t;
  instructions : list RecipeInstruction.t
}.

Definition __str__ `{Interpreter} (self : t) : outcome string :=
  let ingredients_str :=
    map (fun ingredient => PStr (RecipeIngredient.__str__ ingredient))
        (ingredients self) in
  obind (omap RecipeInstruction.__str__ (instructions self))
    (fun instructions_str =>
       Return (py_repr (PDict [("title", title self);
                               ("likes", likes self);
                               ("image", image self);
                               ("ingredients", PList ingredients_str);
                               ("instructions",
                                PList (map PStr instructions_str))]))).

End Recipe.

(** ** formatters.py *)

Class RecipeFormatter (F : Type) : Type :=
  transform_to_text : F -> Recipe.t -> string.

Inductive MarkdownRecipeFormatter : Type := MarkdownRecipeFormatter_new.

Definition markdown_bulletpoint `{Interpreter}
  (ingredient : RecipeIngredient.t) : string :=
  "| " +++ py_str (RecipeIngredient.title ingredient) +++ " | !["
  +++ py_str (RecipeIngredient.title ingredient) +++ "]("
  +++ py_str (RecipeIngredient.image ingredient) +++ ") |".

Definition markdown_step `{Interpreter}
  (numbered : Z * RecipeInstruction.t) : string :=
  let (idx, instruction) := numbered in
  str_of_int (idx + 1) +++ ". " +++ py_str (RecipeInstruction.step instruction).

Definition markdown_transform_to_text `{Interpreter}
  (self : MarkdownRecipeFormatter) (recipe : Recipe.t) : string :=
  let bulletpoints := map markdown_bulletpoint (Recipe.ingredients recipe) in
  let ingredient_bulletpoints := String.concat nl bulletpoints in
  let ingredient_table :=
    nl +++ "| Ingredient | Image |" +++ nl
    +++ "|------------|-------|" +++ nl
    +++ ingredient_bulletpoints +++ nl in
  let steps := map markdown_step (enumerate (Recipe.instructions recipe)) in
  let instruction_steps := String.concat nl steps in
  nl +++ "### " +++ py_str (Recipe.title recipe) +++ nl
  +++ nl
  +++ "Likes: " +++ py_str (Recipe.likes recipe) +++ nl
  +++ nl
  +++ "![Recipe Image](" +++ py_str (Recipe.image recipe) +++ ")" +++ nl
  +++ nl
  +++ "##### Ingredients" +++ nl
  +++ ingredient_table +++ nl
  +++ nl
  +++ "##### Steps" +++ nl
  +++ instruction_steps +++ nl.

#[export] Instance MarkdownRecipeFormatter_formatter `{Interpreter} :
  RecipeFormatter MarkdownRecipeFormatter := markdown_transform_to_text.

(** ** recipes.py: the provider

    A provider talks to the network only: its state is the list of the
    requests sent so far, oldest first.  What the network answers to the
    [n]-th request is given by [requests_get]; [json] is what
    [response.json()] does on the answer. *)

Record Request : Type := { url : string; params : list (string * pyval) }.

Record Response : Type := { status_code : Z; json : outcome pyval }.

Class Network : Type :=
  requests_get : nat -> Request -> outcome Response.

Definition http_get `{Network} (r : Request) : SE (list Request) Response :=
  fun sent => (requests_get (length sent) r, sent ++ [r]).

Class RecipeProvider (P : Type) : Type :=
  fetch_recipes :
    P -> forall (query include_cuisines exclude_cuisines
                 include_ingredients exclude_ingredients : pyval)
                (max_amount : Z), SE (list Request) (list Recipe.t).

Record SpoonacularRecipeProvider : Type := { API_URL : string; API_KEY : string }.

Definition SpoonacularRecipeProvider_new (apiKey : string) :
  SpoonacularRecipeProvider :=
  {| API_URL := "https://api.spoonacular.com/recipes/complexSearch";
     API_KEY := apiKey |}.

Definition build_ingredient (ingredient : pyval) : outcome RecipeIngredient.t :=
  obind (py_get ingredient "original" PNone) (fun original =>
  obind (py_get ingredient "image" PNone) (fun image =>
  Return (RecipeIngredient.new original image))).

Definition build_instruction (instruction : pyval) :
  outcome RecipeInstruction.t :=
  obind (py_get instruction "step" PNone) (fun step =>
  Return (RecipeInstruction.new step)).

(** One element of the comprehension at lines 106-124, its sub-expressions in
    the order Python evaluates them. *)
Definition build_recipe (recipe : pyval) : outcome Recipe.t :=
  obind (py_get recipe "title" PNone) (fun title =>
  obind (py_get recipe "likes" PNone) (fun likes =>
  obind (py_get recipe "image" PNone) (fun image =>
  obind (py_getitem recipe "missedIngredients") (fun missed =>
  obind (py_getitem recipe "usedIngredients") (fun used =>
  obind (py_iter_add missed used) (fun all_ingredients =>
  obind (omap build_ingredient all_ingredients) (fun ingredients =>
  obind (py_getitem recipe "analyzedInstructions") (fun analyzed =>
  obind (py_getitem0 analyzed) (fun first_group =>
  obind (py_getitem first_group "steps") (fun steps =>
  obind (py_iter steps) (fun all_steps =>
  obind (omap build_instruction all_steps) (fun instructions =>
  Return (Recipe.new title likes image ingredients instructions))))))))))))).

Definition request_params (self : SpoonacularRecipeProvider)
  (query : pyval)
  (cuisine excludeCuisine includeIngredients excludeIngredients : string)
  (max_amount : Z) : list (string * pyval) :=
  [("query", query);
   ("cuisine", PStr cuisine);
   ("excludeCuisine", PStr excludeCuisine);
   ("includeIngredients", PStr includeIngredients);
   ("excludeIngredients", PStr excludeIngredients);
   ("number", PInt max_amount);
   ("apiKey", PStr (API_KEY self));
   ("instructionsRequired", PStr "true");
   ("addRecipeInformation", PStr "true");
   ("addRecipeNutrition", PStr "false");
   ("fillIngredients", PStr "true");
   ("ignorePantry", PStr "true");
   ("sort", PStr "calories");
   ("sortDirection", PStr "desc")].

Definition spoonacular_fetch_recipes `{Interpreter} `{Network}
  (self : SpoonacularRecipeProvider)
  (query include_cuisines exclude_cuisines
   include_ingredients exclude_ingredients : pyval) (max_amount : Z) :
  SE (list Request) (list Recipe.t) :=
  cuisine <- lift (py_join "," include_cuisines) ;;
  excludeCuisine <- lift (py_join "," exclude_cuisines) ;;
  includeIngredients <- lift (py_join "," include_ingredients) ;;
  excludeIngredients <- lift (py_join "," exclude_ingredients) ;;
  let params :=
    request_params self query cuisine excludeCuisine includeIngredients
                   excludeIngredients max_amount in
  response <- http_get {| url := API_URL self; params := params |} ;;
  json_response <- lift (json response) ;;
  if status_code response =? 200 then
    recipes <- lift (py_get json_response "results" (PList [])) ;;
    results <- lift (py_iter recipes) ;;
    lift (omap build_recipe results)
  else
    message <- lift (py_get json_response "message" (PStr "Unknown error")) ;;
    raise (Exception ("Error fetching recipes: "
                      +++ str_of_int (status_code response) +++ " "
                      +++ py_str message)).

#[export] Instance SpoonacularRecipeProvider_provider `{Interpreter} `{Network} :
  RecipeProvider SpoonacularRecipeProvider := spoonacular_fetch_recipes.

(** ** agent.py

    The client ([Environment]) is outside the repository.  What one request
    does to it is recorded in a [World]: the inputs of the completion calls,
    the log, the replies, the requests for more input and, for the provider,
    the HTTP requests, each oldest first.  What the language model answers
    to its [n]-th call is given by [completion]. *)

Record Message : Type := { role : string; content : string }.

Inductive Level : Type := DEBUG | ERROR.

(** [level] is [None] where the call leaves the level to the client. *)
Record LogRecord : Type := { text : string; level : option Level }.

Record World : Type := {
  lm_calls : list (list Message);
  agent_log : list LogRecord;
  replies : list string;
  input_requests : nat;
  http_requests : list Request
}.

Class LanguageModel : Type :=
  completion : nat -> list Message -> outcome string.

(** The updates of the world, one per kind of event. *)

Definition called (messages : list Message) (w : World) : World :=
  {| lm_calls := lm_calls w ++ [messages];
     agent_log := agent_log w;
     replies := replies w;
     input_requests := input_requests w;
     http_requests := http_requests w |}.

Definition logged (log : string) (lvl : option Level) (w : World) : World :=
  {| lm_calls := lm_calls w;
     agent_log := agent_log w ++ [{| text := log; level := lvl |}];
     replies := replies w;
     input_requests := input_requests w;
     http_requests := http_requests w |}.

Definition replied (message : string) (w : World) : World :=
  {| lm_calls := lm_calls w;
     agent_log := agent_log w;
     replies := replies w ++ [message];
     input_requests := input_requests w;
     http_requests := http_requests w |}.

Definition asked_input (w : World) : World :=
  {| lm_calls := lm_calls w;
     agent_log := agent_log w;
     replies := replies w;
     input_requests := S (input_requests w);
     http_requests := http_requests w |}.

Definition with_requests (sent : list Request) (w : World) : World :=
  {| lm_calls := lm_calls w;
     agent_log := agent_log w;
     replies := replies w;
     input_requests := input_requests w;
     http_requests := sent |}.

Definition client_completion `{LanguageModel} (messages : list Message) :
  SE World string :=
  fun w => (completion (length (lm_calls w)) messages, called messages w).

Definition add_agent_log (log : string) (lvl : option Level) : SE World unit :=
  fun w => (Return tt, logged log lvl w).

Definition add_reply (message : string) : SE World unit :=
  fun w => (Return tt, replied message w).

Definition request_user_input : SE World unit :=
  fun w => (Return tt, asked_input w).

(** A provider call, run on the network part of the world. *)
Definition on_network {A} (m : SE (list Request) A) : SE World A :=
  fun w =>
    let (o, sent) := m (http_requests w) in (o, with_requests sent w).

Definition dq : string := String "034"%char EmptyString.

Definition system_prompt_content : string :=
  "You are an AI assistant for a cooking recipes application. Your task is to extract as much specific information as possible from the user's natural language query and structure it into a JSON object. The JSON object should include:" +++ nl
  +++ nl
  +++ "                    " +++ dq +++ "include_ingredients" +++ dq +++ ": A list of ingredients that should/must be used in the recipes." +++ nl
  +++ "                    " +++ dq +++ "exclude_ingredients" +++ dq +++ ": A list of ingredients or ingredient types that the recipes must not contain." +++ nl
  +++ "                    " +++ dq +++ "include_cuisines" +++ dq +++ ": A list of cuisine(s) (e.g., Italian, Indian, Japanese, American, etc.) that should/must be used in the recipes." +++ nl
  +++ "                    " +++ dq +++ "exclude_cuisines" +++ dq +++ ": A list of cuisine(s) (e.g., Italian, Indian, Japanese, American, etc.) that the recipes must not use." +++ nl
  +++ "                    " +++ dq +++ "query" +++ dq +++ ": Analyze the user's natural language request and classify it into a specific category (e.g. " +++ dq +++ "burger" +++ dq +++ ", " +++ dq +++ "pasta" +++ dq +++ ", " +++ dq +++ "cookies" +++ dq +++ ", " +++ dq +++ "salad" +++ dq +++ ", etc.). This field should reflect the type of meal the user is requesting rather than copying their words. If unclear, use the most likely category." +++ nl
  +++ "                    Only include fields mentioned by the user. If a field is not mentioned, leave it as an empty list." +++ nl
  +++ "                " +++ nl
  +++ "                    Your response is just a valid JSON object and no other text." +++ nl
  +++ "                    If a user asks about your abilities, capabilities, or functionality, respond with a structured JSON object containing a single key, " +++ dq +++ "message" +++ dq +++ ". This key should include a concise and friendly description of your skill which is to provide a user with a list of personalized recipes to cook at home, tailored to their preferences and requirements.".

Definition system_prompt : Message :=
  {| role := "system"; content := system_prompt_content |}.

Section Agent.

Context `{Interpreter} `{LanguageModel}.
Context {P F : Type} `{RecipeProvider P} `{RecipeFormatter F}.

Record Agent : Type := { recipe_provider : P; formatter : F }.

Definition parse_user_message (message : Message) : SE World pyval :=
  completion <- client_completion [system_prompt; message] ;;
  add_agent_log completion None ;;;
  lift (json_loads completion).

(** [range(n)] *)
Definition range (n : nat) : list Z := map Z.of_nat (seq 0 n).

(** The [for attempt in ...] loop of [parse_user_message_with_retries], over
    the attempts that are left; falling out of the loop returns [None]. *)
Fixpoint retry_loop (message : Message) (attempts : Z) (todo : list Z) :
  SE World pyval :=
  match todo with
  | [] => ret PNone
  | attempt :: todo' =>
      try_except
        (add_agent_log
           ("Attempt #" +++ str_of_int (attempt + 1)
            +++ " to parse user message") (Some DEBUG) ;;;
         parse_user_message message)
        (fun error =>
           if is_JSONDecodeError error then
             if attempt <? attempts - 1
             then retry_loop message attempts todo'
             else raise error
           else raise error)
  end.

Definition parse_user_message_with_retries (message : Message) (attempts : Z) :
  SE World pyval :=
  retry_loop message attempts (range 3).

Fixpoint for_each {A} (l : list A) (body : A -> SE World unit) :
  SE World unit :=
  match l with
  | [] => ret tt
  | x :: xs => body x ;;; for_each xs body
  end.

Definition preparing_reply : string := "Preparing recipes to match your taste".

Definition no_recipes_reply : string :=
  "Unfortunately, couldn't find any recipes matching your request. Please consider being more specific next time!".

Definition found_reply (n : nat) : string :=
  "Found " +++ str_of_int (Z.of_nat n) +++ " recipes for you".

Definition fetched_log (recipes : list Recipe.t) : outcome string :=
  obind (omap Recipe.__str__ recipes) (fun strs =>
  Return ("Fetched " +++ str_of_int (Z.of_nat (length recipes))
          +++ " recipes: " +++ py_repr (PList (map PStr strs)))).

Definition __run (self : Agent) (user_message : Message) : SE World unit :=
  parsed_params <- parse_user_message_with_retries user_message 3 ;;
  add_agent_log ("Parsed user's preferences: " +++ py_str parsed_params)
                (Some DEBUG) ;;;
  message <- lift (py_get parsed_params "message" PNone) ;;
  match message with
  | PStr message => add_reply message
  | _ =>
      add_reply preparing_reply ;;;
      query <- lift (py_get parsed_params "query" (PStr "")) ;;
      include_ingredients <-
        lift (py_get parsed_params "include_ingredients" (PList [])) ;;
      exclude_ingredients <-
        lift (py_get parsed_params "exclude_ingredients" (PList [])) ;;
      include_cuisines <-
        lift (py_get parsed_params "include_cuisines" (PList [])) ;;
      exclude_cuisines <-
        lift (py_get parsed_params "exclude_cuisines" (PList [])) ;;
      recipes <-
        on_network
          (fetch_recipes (recipe_provider self) query
             include_cuisines exclude_cuisines
             include_ingredients exclude_ingredients 5) ;;
      log <- lift (fetched_log recipes) ;;
      add_agent_log log None ;;;
      if (length recipes =? 0)%nat
      then add_reply no_recipes_reply
      else
        add_reply (found_reply (length recipes)) ;;;
        for_each recipes
          (fun recipe =>
             let text := transform_to_text (formatter self) recipe in
             add_reply text)
  end.

Definition try_again_reply : string := "Please try again".

Definition went_wrong_reply : string :=
  "Something went wrong, please be patient until developer fixes it".

Definition run (self : Agent) (user_message : Message) : SE World unit :=
  try_except (__run self user_message)
    (fun error =>
       if is_JSONDecodeError error then
         add_agent_log (exn_str error) (Some ERROR) ;;;
         add_reply try_again_reply
       else
         add_agent_log (exn_str error) (Some ERROR) ;;;
         add_reply went_wrong_reply).

End Agent.

Arguments Agent P F : clear implicits.

Definition configuration_reply : string :=
  "Environment configuration isn't complete, please be patient until the developer fixes it".

(** [main]: [last_message] is what [client.get_last_message()] returns and
    [api_key] what the process environment holds. *)
Definition main `{Interpreter} `{LanguageModel} `{Network}
  (last_message : option Message) (api_key : option string) : SE World unit :=
  match last_message with
  | None => request_user_input
  | Some message =>
      if negb (String.eqb (role message) "user") then request_user_input
      else
        match api_key with
        | None =>
            add_agent_log "Env variable SPOONACULAR_API_KEY is missing" None ;;;
            add_reply configuration_reply
        | Some api_key =>
            let provider := SpoonacularRecipeProvider_new api_key in
            let formatter := MarkdownRecipeFormatter_new in
            let agent :=
              {| recipe_provider := provider; formatter := formatter |} in
            run agent message
        end
  end.

(** ** Vocabulary of the properties *)

(** What the language model is asked on every attempt. *)
Definition prompt (message : Message) : list Message := [system_prompt; message].

(** The world after the [k]-th attempt was announced in the log. *)
Definition announced (k : Z) (w : World) : World :=
  logged ("Attempt #" +++ str_of_int k +++ " to parse user message")
         (Some DEBUG) w.

(** A completion that [json.loads] rejects with a [JSONDecodeError]. *)
Definition malformed `{Interpreter} (c : string) : bool :=
  match json_loads c with
  | Return _ => false
  | Raise e => is_JSONDecodeError e
  end.

(** A filter given as a list of strings, as the signature of [fetch_recipes]
    has it. *)
Definition str_list (l : list string) : pyval := PList (map PStr l).

(** The request [fetch_recipes] sends for such filters. *)
Definition request_for (self : SpoonacularRecipeProvider) (query : pyval)
  (include_cuisines exclude_cuisines
   include_ingredients exclude_ingredients : list string)
  (max_amount : Z) : Request :=
  {| url := API_URL self;
     params :=
       request_params self query
         (String.concat "," include_cuisines)
         (String.concat "," exclude_cuisines)
         (String.concat "," include_ingredients)
         (String.concat "," exclude_ingredients) max_amount |}.

(** Lines 101 to 128 of recipes.py as a function of what [requests.get]
    did; [fetch_recipes_sends] below shows that [fetch_recipes] is this
    function after the request. *)
Definition read_response `{Interpreter} (answer : outcome Response) :
  outcome (list Recipe.t) :=
  obind answer (fun response =>
  obind (json response) (fun json_response =>
  if status_code response =? 200 then
    obind (py_get json_response "results" (PList [])) (fun recipes =>
    obind (py_iter recipes) (fun results => omap build_recipe results))
  else
    obind (py_get json_response "message" (PStr "Unknown error"))
      (fun message =>
         Raise (Exception ("Error fetching recipes: "
                           +++ str_of_int (status_code response) +++ " "
                           +++ py_str message))))).

(** What [v.get(key)] is when [v] is a dict. *)
Definition field (v : pyval) (key : string) : pyval :=
  match v with
  | PDict d =>
      match lookup key d with
      | Some x => x
      | None => PNone
      end
  | _ => PNone
  end.

Definition is_dict (v : pyval) : bool :=
  match v with
  | PDict _ => true
  | _ => false
  end.

(** The list an object holds under [key], if it is an object and holds one. *)
Definition list_at (v : pyval) (key : string) : option (list pyval) :=
  match v with
  | PDict d =>
      match lookup key d with
      | Some (PList l) => Some l
      | _ => None
      end
  | _ => None
  end.

(** The steps of the first analyzed-instruction group of a result. *)
Definition first_group_steps (result : pyval) : option (list pyval) :=
  match list_at result "analyzedInstructions" with
  | Some (group :: _) => list_at group "steps"
  | _ => None
  end.

(** A result of the shape the search API documents: an object with lists of
    objects under [missedIngredients] and [usedIngredients], and a list under
    [analyzedInstructions] whose first group is an object with a list of
    objects under [steps]. *)
Definition well_shaped (result : pyval) : bool :=
  match list_at result "missedIngredients",
        list_at result "usedIngredients",
        first_group_steps result with
  | Some missed, Some used, Some steps =>
      forallb is_dict (missed ++ used) && forallb is_dict steps
  | _, _, _ => false
  end.

Definition ingredient_of (ingredient : pyval) : RecipeIngredient.t :=
  RecipeIngredient.new (field ingredient "original") (field ingredient "image").

Definition instruction_of (instruction : pyval) : RecipeInstruction.t :=
  RecipeInstruction.new (field instruction "step").

(** The recipe the specification describes for a result: the missed
    ingredients, then the used ones, and the steps of the first group only.
    [fetch_recipes] is compared with it below. *)
Definition normalized_recipe (result : pyval) : option Recipe.t :=
  match list_at result "missedIngredients",
        list_at result "usedIngredients",
        first_group_steps result with
  | Some missed, Some used, Some steps =>
      Some (Recipe.new (field result "title") (field result "likes")
                       (field result "image")
                       (map ingredient_of (missed ++ used))
                       (map instruction_of steps))
  | _, _, _ => None
  end.


(** The capability description a parsed value carries, if it is an object
    with a string under [message]. *)
Definition capability_message (parsed : pyval) : option string :=
  match parsed with
  | PDict d =>
      match lookup "message" d with
      | Some (PStr message) => Some message
      | _ => None
      end
  | _ => None
  end.

(** [d.get(key, default)] on the fields of a dict. *)
Definition get_or (d : list (string * pyval)) (key : string) (default : pyval) :
  pyval :=
  match lookup key d with
  | Some x => x
  | None => default
  end.

(** The reply of the top-level handler of [run] to an error. *)
Definition error_reply (e : exn) : string :=
  if is_JSONDecodeError e then try_again_reply else went_wrong_reply.

(** Every instruction step of every recipe is a string, as
    [RecipeInstruction] declares it. *)
Definition steps_are_str (recipes : list Recipe.t) : bool :=
  forallb
    (fun recipe =>
       forallb
         (fun instruction =>
            match RecipeInstruction.step instruction with
            | PStr _ => true
            | _ => false
            end)
         (Recipe.instructions recipe))
    recipes.

(** ** A small interpreter and environment, to run the model on examples

    [demo_json_loads] agrees with [json.loads] on the completions used
    below; [scripted] and [served] answer the [n]-th call with the [n]-th
    element of a script. *)

Definition capability_json : string :=
  "{" +++ dq +++ "message" +++ dq +++ ": " +++ dq +++ "I find recipes" +++ dq
  +++ "}".

Definition demo_json_loads (s : string) : outcome pyval :=
  if String.eqb s "{}" then Return (PDict [])
  else if String.eqb s "null" then Return PNone
  else if String.eqb s capability_json
       then Return (PDict [("message", PStr "I find recipes")])
  else Raise (JSONDecodeError "Expecting value: line 1 column 1 (char 0)").

Definition demo_repr (v : pyval) : string :=
  match v with
  | PStr s => "'" +++ s +++ "'"
  | PInt z => str_of_int z
  | PNone => "None"
  | _ => "<value>"
  end.

Definition demo_exn_str (e : exn) : string :=
  match e with
  | JSONDecodeError msg => msg
  | KeyError key => demo_repr key
  | Exception msg => msg
  | OtherError _ msg => msg
  | _ => ""
  end.

Definition demo_interpreter : Interpreter :=
  {| json_loads := demo_json_loads;
     py_repr := demo_repr;
     exn_str := demo_exn_str |}.

Definition scripted (answers : list (outcome string)) : LanguageModel :=
  fun n _ => nth n answers (Raise (OtherError "ConnectionError" "no answer")).

Definition served (answers : list (outcome Response)) : Network :=
  fun n _ => nth n answers (Raise (OtherError "ConnectionError" "no answer")).

Definition empty_world : World :=
  {| lm_calls := []; agent_log := []; replies := [];
     input_requests := 0; http_requests := [] |}.

Definition hello : Message := {| role := "user"; content := "pasta please" |}.

Definition not_json : string := "Sure! Here is the JSON you asked for".

(** A model that answers in prose twice before it answers in JSON, one whose
    first call fails in transport, and one that never answers in JSON. *)

Definition flaky_model : LanguageModel :=
  scripted [Return not_json; Return not_json; Return "{}"].

Definition offline_model : LanguageModel :=
  scripted [Raise (OtherError "ConnectionError" "timed out"); Return "{}"].

Definition chatty_model : LanguageModel := fun _ _ => Return not_json.

(** Answers of the search API: a gateway error whose body is not JSON, a
    refusal with a message, a refusal without one, a result that is an empty
    object, a result without instructions, a result whose step has no text,
    and a result with two missed and three used ingredients and two
    instruction groups. *)

Definition demo_provider : SpoonacularRecipeProvider :=
  SpoonacularRecipeProvider_new "secret".

Definition bad_gateway : Response :=
  {| status_code := 502;
     json := Raise (JSONDecodeError
                      "Expecting value: line 1 column 1 (char 0)") |}.

Definition unauthorized : Response :=
  {| status_code := 401;
     json := Return (PDict [("status", PStr "failure"); ("code", PInt 401);
                            ("message", PStr "You are not authorized.")]) |}.

Definition teapot : Response :=
  {| status_code := 418; json := Return (PDict []) |}.


Definition ingredient_json (original image : string) : pyval :=
  PDict [("id", PInt 1); ("original", PStr original); ("image", PStr image)].

(** A result that holds every key but has no analyzed instructions. *)
Definition toast_json : pyval :=
  PDict [("id", PInt 640352);
         ("title", PStr "Toast");
         ("image", PStr "toast.jpg");
         ("likes", PInt 1);
         ("missedIngredients", PList [ingredient_json "2 slices bread" "bread.png"]);
         ("usedIngredients", PList []);
         ("analyzedInstructions", PList [])].

Definition toast_found : Response :=
  {| status_code := 200;
     json := Return (PDict [("results", PList [toast_json]);
                            ("totalResults", PInt 1)]) |}.

Definition step_json (number : Z) (step : string) : pyval :=
  PDict [("number", PInt number); ("step", PStr step)].

Definition pancakes_json : pyval :=
  PDict [("id", PInt 716429);
         ("title", PStr "Pancakes");
         ("image", PStr "pancakes.jpg");
         ("likes", PInt 7);
         ("missedIngredients",
          PList [ingredient_json "1 cup flour" "flour.png";
                 ingredient_json "1 tsp sugar" "sugar.png"]);
         ("usedIngredients",
          PList [ingredient_json "2 eggs" "egg.png";
                 ingredient_json "1 cup milk" "milk.png";
                 ingredient_json "1 tbsp butter" "butter.png"]);
         ("analyzedInstructions",
          PList [PDict [("name", PStr "");
                        ("steps", PList [step_json 1 "Mix."; step_json 2 "Fry."])];
                 PDict [("name", PStr "Topping");
                        ("steps", PList [step_json 1 "Whip the cream."])]])].

(** A result whose only step has a number but no text. *)
Definition porridge_json : pyval :=
  PDict [("id", PInt 652134);
         ("title", PStr "Porridge");
         ("image", PStr "porridge.jpg");
         ("likes", PInt 3);
         ("missedIngredients", PList [ingredient_json "1 cup oats" "oats.png"]);
         ("usedIngredients", PList [ingredient_json "1 cup milk" "milk.png"]);
         ("analyzedInstructions",
          PList [PDict [("name", PStr "");
                        ("steps", PList [PDict [("number", PInt 1)]])]])].

Definition porridge_found : Response :=
  {| status_code := 200;
     json := Return (PDict [("results", PList [porridge_json]);
                            ("totalResults", PInt 1)]) |}.

Definition porridge : Recipe.t :=
  Recipe.new (PStr "Porridge") (PInt 3) (PStr "porridge.jpg")
    [RecipeIngredient.new (PStr "1 cup oats") (PStr "oats.png");
     RecipeIngredient.new (PStr "1 cup milk") (PStr "milk.png")]
    [RecipeInstruction.new PNone].

Definition pancakes_found : Response :=
  {| status_code := 200;
     json := Return (PDict [("results", PList [pancakes_json]);
                            ("totalResults", PInt 1)]) |}.

Definition pancakes : Recipe.t :=
  Recipe.new (PStr "Pancakes") (PInt 7) (PStr "pancakes.jpg")
    [RecipeIngredient.new (PStr "1 cup flour") (PStr "flour.png");
     RecipeIngredient.new (PStr "1 tsp sugar") (PStr "sugar.png");
     RecipeIngredient.new (PStr "2 eggs") (PStr "egg.png");
     RecipeIngredient.new (PStr "1 cup milk") (PStr "milk.png");
     RecipeIngredient.new (PStr "1 tbsp butter") (PStr "butter.png")]
    [RecipeInstruction.new (PStr "Mix."); RecipeInstruction.new (PStr "Fry.")].

(** One call of the provider for a pancake search, on a fresh network that
    gives [answers]. *)
Definition demo_fetch (answers : list (outcome Response)) :
  outcome (list Recipe.t) * list Request :=
  @fetch_recipes _
    (@SpoonacularRecipeProvider_provider demo_interpreter (served answers))
    demo_provider (PStr "pancakes") (str_list []) (str_list [])
    (str_list ["egg"; "milk"]) (str_list []) 5 [].

(** The provider call [__run] makes when the parsed object is empty. *)
Definition demo_fetch_all (answers : list (outcome Response)) :
  outcome (list Recipe.t) * list Request :=
  @fetch_recipes _
    (@SpoonacularRecipeProvider_provider demo_interpreter (served answers))
    demo_provider (PStr "") (PList []) (PList []) (PList []) (PList []) 5 [].

(** The agent [main] builds, and one request to it: the language model
    gives [completions], the search API gives [answers]. *)

Definition demo_agent : Agent SpoonacularRecipeProvider MarkdownRecipeFormatter :=
  {| recipe_provider := demo_provider; formatter := MarkdownRecipeFormatter_new |}.

Definition demo_parse (completions : list (outcome string)) :
  outcome pyval * World :=
  @parse_user_message_with_retries demo_interpreter (scripted completions)
    hello 3 empty_world.

Definition demo___run (completions : list (outcome string))
  (answers : list (outcome Response)) : outcome unit * World :=
  @__run demo_interpreter (scripted completions) _ _
    (@SpoonacularRecipeProvider_provider demo_interpreter (served answers))
    (@MarkdownRecipeFormatter_formatter demo_interpreter)
    demo_agent hello empty_world.

Definition demo_run (completions : list (outcome string))
  (answers : list (outcome Response)) : outcome unit * World :=
  @run demo_interpreter (scripted completions) _ _
    (@SpoonacularRecipeProvider_provider demo_interpreter (served answers))
    (@MarkdownRecipeFormatter_formatter demo_interpreter)
    demo_agent hello empty_world.

Definition demo_main (completions : list (outcome string))
  (answers : list (outcome Response)) : outcome unit * World :=
  @main demo_interpreter (scripted completions) (served answers)
    (Some hello) (Some "secret") empty_world.

(** More answers of the search API: status 200 with a body that is not
    JSON, with a body that is a list, with [results] set to [null] and with
    no result; and the fields of a result, given its instruction groups. *)

Definition garbled_ok : Response :=
  {| status_code := 200;
     json := Raise (JSONDecodeError
                      "Expecting value: line 1 column 1 (char 0)") |}.

Definition listing : Response :=
  {| status_code := 200; json := Return (PList []) |}.

Definition null_results : Response :=
  {| status_code := 200; json := Return (PDict [("results", PNone)]) |}.

Definition nothing_found : Response :=
  {| status_code := 200;
     json := Return (PDict [("results", PList []); ("totalResults", PInt 0)]) |}.

Definition waffle_fields (groups : list pyval) : list (string * pyval) :=
  [("title", PStr "Waffles");
   ("image", PStr "waffles.jpg");
   ("likes", PInt 2);
   ("missedIngredients", PList [ingredient_json "1 cup flour" "flour.png"]);
   ("usedIngredients", PList [ingredient_json "2 eggs" "egg.png"]);
   ("analyzedInstructions", PList groups)].

Definition batter_group : pyval :=
  PDict [("name", PStr ""); ("steps", PList [step_json 1 "Mix."])].

Definition syrup_group : pyval :=
  PDict [("name", PStr "Syrup"); ("steps", PList [step_json 1 "Boil."])].

(** A log record written at [logging.ERROR]. *)
Definition is_error_record (record : LogRecord) : bool :=
  match level record with
  | Some ERROR => true
  | _ => false
  end.






(** * Properties *)

(** ** The parse step *)

Section ParseStep.

Context `{Interpreter} `{LanguageModel}.

Lemma parse_user_message_raise (message : Message) (w : World) (e : exn) :
  completion (length (lm_calls w)) (prompt message) = Raise e ->
  parse_user_message message w = (Raise e, called (prompt message) w).
Proof.
  intros Hc. unfold parse_user_message, bind, client_completion.
  fold (prompt message). rewrite Hc. reflexivity.
Qed.

Lemma parse_user_message_return (message : Message) (w : World) (c : string) :
  completion (length (lm_calls w)) (prompt message) = Return c ->
  parse_user_message message w
  = (json_loads c, logged c None (called (prompt message) w)).
Proof.
  intros Hc. unfold parse_user_message, bind, client_completion.
  fold (prompt message). rewrite Hc. unfold add_agent_log, lift.
  destruct (json_loads c); reflexivity.
Qed.

(** One attempt makes one completion call, whatever comes of it. *)
Lemma parse_user_message_calls (message : Message) (w : World) :
  lm_calls (snd (parse_user_message message w))
  = lm_calls w ++ [prompt message].
Proof.
  destruct (completion (length (lm_calls w)) (prompt message)) as [c|e] eqn:Hc.
  - rewrite (parse_user_message_return _ _ _ Hc). reflexivity.
  - rewrite (parse_user_message_raise _ _ _ Hc). reflexivity.
Qed.

Lemma retry_loop_cons (message : Message) (attempts attempt : Z)
  (todo : list Z) (w : World) :
  retry_loop message attempts (attempt :: todo) w
  = match parse_user_message message (announced (attempt + 1) w) with
    | (Return v, w') => (Return v, w')
    | (Raise e, w') =>
        if is_JSONDecodeError e && (attempt <? attempts - 1)
        then retry_loop message attempts todo w'
        else (Raise e, w')
    end.
Proof.
  cbn [retry_loop]. unfold try_except, bind at 1, add_agent_log at 1.
  fold (announced (attempt + 1) w).
  destruct (parse_user_message message (announced (attempt + 1) w)) as [[v|e] w'];
    [reflexivity|].
  destruct (is_JSONDecodeError e); [|reflexivity].
  destruct (attempt <? attempts - 1); reflexivity.
Qed.

(** An attempt whose completion is malformed, with attempts left, goes on to
    the next one. *)
Lemma retry_loop_malformed (message : Message) (attempts attempt : Z)
  (todo : list Z) (w : World) (c : string) :
  completion (length (lm_calls w)) (prompt message) = Return c ->
  malformed c = true ->
  attempt < attempts - 1 ->
  retry_loop message attempts (attempt :: todo) w
  = retry_loop message attempts todo
      (logged c None (called (prompt message) (announced (attempt + 1) w))).
Proof.
  intros Hc Hm Hlt. rewrite retry_loop_cons.
  rewrite (parse_user_message_return message (announced (attempt + 1) w) c Hc).
  unfold malformed in Hm. destruct (json_loads c) as [v|e]; [discriminate|].
  rewrite Hm. apply Z.ltb_lt in Hlt. rewrite Hlt. reflexivity.
Qed.

(** The last attempt the [attempts] argument allows returns or raises what
    its parse does. *)
Lemma retry_loop_last (message : Message) (attempts attempt : Z)
  (todo : list Z) (w : World) (c : string) :
  completion (length (lm_calls w)) (prompt message) = Return c ->
  attempts - 1 <= attempt ->
  retry_loop message attempts (attempt :: todo) w
  = (json_loads c,
     logged c None (called (prompt message) (announced (attempt + 1) w))).
Proof.
  intros Hc Hge. rewrite retry_loop_cons.
  rewrite (parse_user_message_return message (announced (attempt + 1) w) c Hc).
  destruct (json_loads c) as [v|e]; [reflexivity|].
  apply Z.ltb_ge in Hge. rewrite Hge, andb_false_r. reflexivity.
Qed.

(** The world after one attempt that got the completion [c]. *)
Lemma attempt_lm_calls (message : Message) (k : Z) (c : string) (w : World) :
  lm_calls (logged c None (called (prompt message) (announced k w)))
  = lm_calls w ++ [prompt message].
Proof. reflexivity. Qed.

Lemma attempt_lm_count (message : Message) (k : Z) (c : string) (w : World) :
  length (lm_calls (logged c None (called (prompt message) (announced k w))))
  = S (length (lm_calls w)).
Proof. rewrite attempt_lm_calls, length_app. cbn. lia. Qed.

(** C2: with [attempts=3], when the completions of attempts 1 and 2 are
    malformed JSON, the third attempt decides: valid JSON on attempt 3 is
    returned, a malformed completion on attempt 3 raises its
    [JSONDecodeError] to the caller; either way the language model was
    invoked exactly three times, each time on the same input, and never a
    fourth time. *)
Theorem retries_stop_at_third_attempt
  (message : Message) (w : World) (c1 c2 c3 : string) :
  let n := length (lm_calls w) in
  completion n (prompt message) = Return c1 ->
  completion (S n) (prompt message) = Return c2 ->
  completion (S (S n)) (prompt message) = Return c3 ->
  malformed c1 = true ->
  malformed c2 = true ->
  let r := parse_user_message_with_retries message 3 w in
  match json_loads c3 with
  | Return v => fst r = Return v
  | Raise e => fst r = Raise e
  end
  /\ lm_calls (snd r)
     = lm_calls w ++ [prompt message; prompt message; prompt message].
Proof.
  intros n H1 H2 H3 M1 M2 r. subst r n.
  unfold parse_user_message_with_retries.
  change (range 3) with [0; 1; 2].
  rewrite (retry_loop_malformed message 3 0 _ w c1 H1 M1) by lia.
  rewrite (retry_loop_malformed message 3 1 _ _ c2) by
    (try rewrite attempt_lm_count; try assumption; lia).
  rewrite (retry_loop_last message 3 2 _ _ c3) by
    (try rewrite !attempt_lm_count; try assumption; lia).
  split.
  - cbn [fst]. destruct (json_loads c3); reflexivity.
  - cbn [snd]. rewrite !attempt_lm_calls, <- !app_assoc. reflexivity.
Qed.

(** C8: when the first attempt raises an error that is not a
    [JSONDecodeError] (whether the completion call or the decoding raised
    it), [parse_user_message_with_retries] raises that error at once,
    whatever [attempts] is: one completion call was made and none follows. *)
Theorem unexpected_error_is_not_retried
  (message : Message) (attempts : Z) (w w' : World) (e : exn) :
  parse_user_message message (announced 1 w) = (Raise e, w') ->
  is_JSONDecodeError e = false ->
  parse_user_message_with_retries message attempts w = (Raise e, w')
  /\ lm_calls w' = lm_calls w ++ [prompt message].
Proof.
  intros Hp He. split.
  - unfold parse_user_message_with_retries. change (range 3) with [0; 1; 2].
    rewrite retry_loop_cons. change (0 + 1) with 1. rewrite Hp, He.
    reflexivity.
  - pose proof (parse_user_message_calls message (announced 1 w)) as Hc.
    rewrite Hp in Hc. exact Hc.
Qed.

(** C9: with an [attempts] argument above 3 and every completion malformed
    JSON, the loop still runs [range(3)]: exactly three attempts are made,
    none of them raises to the caller, and the function falls out of the
    loop and returns [None]. *)
Theorem surplus_attempts_return_None
  (message : Message) (attempts : Z) (w : World) :
  3 < attempts ->
  (forall n, exists c,
      completion n (prompt message) = Return c /\ malformed c = true) ->
  let r := parse_user_message_with_retries message attempts w in
  fst r = Return PNone
  /\ lm_calls (snd r)
     = lm_calls w ++ [prompt message; prompt message; prompt message].
Proof.
  intros Hgt Hall r. subst r.
  destruct (Hall (length (lm_calls w))) as [c1 [H1 M1]].
  destruct (Hall (S (length (lm_calls w)))) as [c2 [H2 M2]].
  destruct (Hall (S (S (length (lm_calls w))))) as [c3 [H3 M3]].
  unfold parse_user_message_with_retries. change (range 3) with [0; 1; 2].
  rewrite (retry_loop_malformed message attempts 0 _ w c1 H1 M1) by lia.
  rewrite (retry_loop_malformed message attempts 1 _ _ c2) by
    (try rewrite attempt_lm_count; try assumption; lia).
  rewrite (retry_loop_malformed message attempts 2 _ _ c3) by
    (try rewrite !attempt_lm_count; try assumption; lia).
  cbn [retry_loop]. unfold ret. cbn [fst snd]. split; [reflexivity|].
  rewrite !attempt_lm_calls, <- !app_assoc. reflexivity.
Qed.

End ParseStep.

Lemma retries_stop_at_third_attempt_witness :
  let r := @parse_user_message_with_retries demo_interpreter flaky_model
             hello 3 empty_world in
  fst r = Return (PDict []) /\ length (lm_calls (snd r)) = 3%nat.
Proof.
  intros r.
  destruct (@retries_stop_at_third_attempt demo_interpreter flaky_model
              hello empty_world not_json not_json "{}"
              eq_refl eq_refl eq_refl eq_refl eq_refl) as [Hv Hc].
  split; [exact Hv|]. subst r. rewrite Hc. reflexivity.
Defined.

Lemma unexpected_error_is_not_retried_witness :
  let r := @parse_user_message_with_retries demo_interpreter offline_model
             hello 3 empty_world in
  fst r = Raise (OtherError "ConnectionError" "timed out")
  /\ lm_calls (snd r) = [prompt hello].
Proof.
  intros r.
  destruct (@unexpected_error_is_not_retried demo_interpreter offline_model
              hello 3 empty_world
              (called (prompt hello) (announced 1 empty_world))
              (OtherError "ConnectionError" "timed out")
              eq_refl eq_refl) as [Hr Hc].
  subst r. rewrite Hr. split; [reflexivity | exact Hc].
Defined.

Lemma surplus_attempts_return_None_witness :
  let r := @parse_user_message_with_retries demo_interpreter chatty_model
             hello 5 empty_world in
  fst r = Return PNone /\ length (lm_calls (snd r)) = 3%nat.
Proof.
  intros r.
  assert (Hgt : 3 < 5) by lia.
  assert (Hall : forall n : nat, exists c,
             @completion chatty_model n (prompt hello) = Return c
             /\ @malformed demo_interpreter c = true)
    by (intros n; exists not_json; split; reflexivity).
  destruct (@surplus_attempts_return_None demo_interpreter chatty_model
              hello 5 empty_world Hgt Hall) as [Hv Hc].
  split; [exact Hv|]. subst r. rewrite Hc. reflexivity.
Defined.

(** ** The provider *)

Section Provider.

Context `{Interpreter} `{Network}.

Lemma all_str_map_PStr (l : list string) : all_str (map PStr l) = Some l.
Proof.
  induction l as [|s l IH]; [reflexivity|]. cbn. rewrite IH. reflexivity.
Qed.

Lemma py_join_str_list (sep : string) (l : list string) :
  py_join sep (str_list l) = Return (String.concat sep l).
Proof. unfold str_list, py_join. rewrite all_str_map_PStr. reflexivity. Qed.

(** [fetch_recipes] sends one request, whatever comes back, and then only
    reads the answer. *)
Lemma fetch_recipes_sends (self : SpoonacularRecipeProvider) (query : pyval)
  (ic ec ii ei : list string) (max_amount : Z) (sent : list Request) :
  fetch_recipes self query (str_list ic) (str_list ec) (str_list ii)
                (str_list ei) max_amount sent
  = (read_response
       (requests_get (length sent)
                     (request_for self query ic ec ii ei max_amount)),
     sent ++ [request_for self query ic ec ii ei max_amount]).
Proof.
  unfold fetch_recipes, SpoonacularRecipeProvider_provider,
    spoonacular_fetch_recipes.
  unfold bind at 1. unfold lift at 1. rewrite py_join_str_list.
  unfold bind at 1. unfold lift at 1. rewrite py_join_str_list.
  unfold bind at 1. unfold lift at 1. rewrite py_join_str_list.
  unfold bind at 1. unfold lift at 1. rewrite py_join_str_list.
  unfold bind at 1. unfold http_get. fold (request_for self query ic ec ii ei max_amount).
  unfold read_response.
  destruct (requests_get (length sent) _) as [response|e]; [|reflexivity].
  cbn [obind]. unfold bind, lift, raise.
  destruct (json response) as [json_response|e]; [|reflexivity].
  cbn [obind].
  destruct (status_code response =? 200).
  - destruct (py_get json_response "results" (PList [])) as [recipes|e];
      [|reflexivity].
    cbn [obind]. destruct (py_iter recipes) as [results|e]; reflexivity.
  - destruct (py_get json_response "message" (PStr "Unknown error"));
      reflexivity.
Qed.

(** C6: every call of [fetch_recipes] with list-valued filters sends one
    request in which each filter is the comma-joined string of its elements:
    [cuisine], [excludeCuisine], [includeIngredients] and
    [excludeIngredients].  In particular the ingredients [egg] and [milk]
    are sent as [egg,milk], and an empty list as the empty string. *)
Theorem filters_are_comma_joined :
  (forall (self : SpoonacularRecipeProvider) (query : pyval)
          (ic ec ii ei : list string) (max_amount : Z) (sent : list Request),
      exists request,
        snd (fetch_recipes self query (str_list ic) (str_list ec)
                           (str_list ii) (str_list ei) max_amount sent)
        = sent ++ [request]
        /\ lookup "cuisine" (params request)
           = Some (PStr (String.concat "," ic))
        /\ lookup "excludeCuisine" (params request)
           = Some (PStr (String.concat "," ec))
        /\ lookup "includeIngredients" (params request)
           = Some (PStr (String.concat "," ii))
        /\ lookup "excludeIngredients" (params request)
           = Some (PStr (String.concat "," ei)))
  /\ (forall (self : SpoonacularRecipeProvider) (query : pyval)
             (ic ec ei : list string) (max_amount : Z) (sent : list Request),
         exists request,
           snd (fetch_recipes self query (str_list ic) (str_list ec)
                              (str_list ["egg"; "milk"]) (str_list ei)
                              max_amount sent)
           = sent ++ [request]
           /\ lookup "includeIngredients" (params request)
              = Some (PStr "egg,milk"))
  /\ (forall (self : SpoonacularRecipeProvider) (query : pyval)
             (ic ec ei : list string) (max_amount : Z) (sent : list Request),
         exists request,
           snd (fetch_recipes self query (str_list ic) (str_list ec)
                              (str_list []) (str_list ei) max_amount sent)
           = sent ++ [request]
           /\ lookup "includeIngredients" (params request) = Some (PStr "")).
Proof.
  split; [|split]; intros.
  - rewrite fetch_recipes_sends. eexists. split; [reflexivity|].
    repeat split; reflexivity.
  - rewrite fetch_recipes_sends. eexists. split; reflexivity.
  - rewrite fetch_recipes_sends. eexists. split; reflexivity.
Qed.

Lemma py_get_dict (d : list (string * pyval)) (key : string) :
  py_get (PDict d) key PNone = Return (field (PDict d) key).
Proof. unfold py_get, field. destruct (lookup key d); reflexivity. Qed.

Lemma build_ingredient_dict (ingredient : pyval) :
  is_dict ingredient = true ->
  build_ingredient ingredient = Return (ingredient_of ingredient).
Proof.
  destruct ingredient as [| | | | | |d]; try discriminate. intros _.
  unfold build_ingredient. rewrite !py_get_dict. reflexivity.
Qed.

Lemma build_instruction_dict (instruction : pyval) :
  is_dict instruction = true ->
  build_instruction instruction = Return (instruction_of instruction).
Proof.
  destruct instruction as [| | | | | |d]; try discriminate. intros _.
  unfold build_instruction. rewrite !py_get_dict. reflexivity.
Qed.

Lemma omap_total {A B} (f : A -> outcome B) (g : A -> B) (l : list A) :
  (forall x, In x l -> f x = Return (g x)) ->
  omap f l = Return (map g l).
Proof.
  induction l as [|x l IH]; intros Hf; [reflexivity|].
  cbn [omap map]. rewrite (Hf x (or_introl eq_refl)). cbn [obind].
  rewrite IH by (intros y Hy; apply Hf; right; exact Hy). reflexivity.
Qed.

Lemma omap_build_ingredient (l : list pyval) :
  forallb is_dict l = true ->
  omap build_ingredient l = Return (map ingredient_of l).
Proof.
  intros Hl. apply omap_total. intros x Hx.
  apply build_ingredient_dict. rewrite forallb_forall in Hl. auto.
Qed.

Lemma omap_build_instruction (l : list pyval) :
  forallb is_dict l = true ->
  omap build_instruction l = Return (map instruction_of l).
Proof.
  intros Hl. apply omap_total. intros x Hx.
  apply build_instruction_dict. rewrite forallb_forall in Hl. auto.
Qed.

(** On a well-shaped result the comprehension builds the recipe of the
    specification. *)
Lemma build_recipe_well_shaped (result : pyval) :
  well_shaped result = true ->
  exists recipe,
    build_recipe result = Return recipe
    /\ normalized_recipe result = Some recipe.
Proof.
  unfold well_shaped, normalized_recipe, first_group_steps.
  destruct result as [| | | | | |d]; try discriminate.
  unfold list_at at 1 2 3 5 6 7.
  destruct (lookup "missedIngredients" d) as [[| | | | |missed|]|] eqn:Hm;
    try discriminate.
  destruct (lookup "usedIngredients" d) as [[| | | | |used|]|] eqn:Hu;
    try discriminate.
  destruct (lookup "analyzedInstructions" d) as [[| | | | |[|group groups]|]|]
    eqn:Ha; try discriminate.
  unfold list_at.
  destruct group as [| | | | | |g]; try discriminate.
  destruct (lookup "steps" g) as [[| | | | |steps|]|] eqn:Hs; try discriminate.
  intros Hshape. apply andb_prop in Hshape. destruct Hshape as [Hi Hst].
  eexists. split; [|reflexivity].
  unfold build_recipe. rewrite !py_get_dict. cbn [obind].
  unfold py_getitem. rewrite Hm, Hu, Ha. cbn [obind py_iter_add].
  rewrite (omap_build_ingredient _ Hi). cbn [obind py_getitem0].
  rewrite Hs. cbn [obind py_iter].
  rewrite (omap_build_instruction _ Hst). reflexivity.
Qed.

Lemma omap_build_recipe_well_shaped (results : list pyval) :
  forallb well_shaped results = true ->
  exists recipes,
    omap build_recipe results = Return recipes
    /\ map normalized_recipe results = map Some recipes.
Proof.
  induction results as [|result results IH]; intros Hall.
  - exists []. split; reflexivity.
  - cbn [forallb] in Hall. apply andb_prop in Hall. destruct Hall as [Hr Hrs].
    destruct (build_recipe_well_shaped result Hr) as [recipe [Hb Hn]].
    destruct (IH Hrs) as [recipes [Hbs Hns]].
    exists (recipe :: recipes). cbn [omap map].
    rewrite Hb, Hn, Hns. cbn [obind]. rewrite Hbs. split; reflexivity.
Qed.

(** C3, as amended: on an HTTP 200 answer whose body is a JSON object,
    [fetch_recipes] returns the empty list when the body has no [results]
    key; and when [results] is an array of well-shaped results it returns one
    recipe per result, in order, each with the missed ingredients followed
    by the used ones and with the steps of the first instruction group
    only. *)
Theorem fetch_recipes_normalizes_results
  (self : SpoonacularRecipeProvider) (query : pyval)
  (ic ec ii ei : list string) (max_amount : Z) (sent : list Request)
  (response : Response) (body : list (string * pyval)) :
  requests_get (length sent) (request_for self query ic ec ii ei max_amount)
  = Return response ->
  status_code response = 200 ->
  json response = Return (PDict body) ->
  let r := fst (fetch_recipes self query (str_list ic) (str_list ec)
                              (str_list ii) (str_list ei) max_amount sent) in
  (lookup "results" body = None -> r = Return [])
  /\ (forall results,
         lookup "results" body = Some (PList results) ->
         forallb well_shaped results = true ->
         exists recipes,
           r = Return recipes
           /\ length recipes = length results
           /\ map normalized_recipe results = map Some recipes).
Proof.
  intros Hget Hstatus Hjson r. subst r. rewrite fetch_recipes_sends.
  cbn [fst]. rewrite Hget. unfold read_response. cbn [obind].
  rewrite Hjson, Hstatus. cbn [obind Z.eqb Pos.eqb py_get]. split.
  - intros Hnone. rewrite Hnone. reflexivity.
  - intros results Hsome Hshape. rewrite Hsome. cbn [obind py_iter].
    destruct (omap_build_recipe_well_shaped results Hshape)
      as [recipes [Hb Hn]].
    exists recipes. split; [exact Hb|]. split; [|exact Hn].
    apply (f_equal (@length _)) in Hn. rewrite !length_map in Hn.
    symmetry. exact Hn.
Qed.

(** C7, as amended: on an answer whose status is not 200 and whose body is
    a JSON object, [fetch_recipes] raises an [Exception] whose message
    carries the status code and the [message] field of the body, or
    [Unknown error] when the body has none; that one request is the only
    one sent, and no recipe is returned. *)
Theorem non_200_raises_status_and_message
  (self : SpoonacularRecipeProvider) (query : pyval)
  (ic ec ii ei : list string) (max_amount : Z) (sent : list Request)
  (response : Response) (body : list (string * pyval)) :
  requests_get (length sent) (request_for self query ic ec ii ei max_amount)
  = Return response ->
  status_code response <> 200 ->
  json response = Return (PDict body) ->
  fetch_recipes self query (str_list ic) (str_list ec) (str_list ii)
                (str_list ei) max_amount sent
  = (Raise (Exception
              ("Error fetching recipes: "
               +++ str_of_int (status_code response) +++ " "
               +++ match lookup "message" body with
                   | Some message => py_str message
                   | None => "Unknown error"
                   end)),
     sent ++ [request_for self query ic ec ii ei max_amount]).
Proof.
  intros Hget Hstatus Hjson. rewrite fetch_recipes_sends, Hget.
  unfold read_response. cbn [obind]. rewrite Hjson. cbn [obind].
  apply Z.eqb_neq in Hstatus. rewrite Hstatus. cbn [py_get].
  destruct (lookup "message" body); reflexivity.
Qed.















End Provider.

Lemma fetch_recipes_normalizes_results_witness :
  fst (demo_fetch [Return pancakes_found]) = Return [pancakes].
Proof.
  destruct (@fetch_recipes_normalizes_results
              demo_interpreter (served [Return pancakes_found])
              demo_provider (PStr "pancakes") [] [] ["egg"; "milk"] [] 5 []
              pancakes_found _ eq_refl eq_refl eq_refl) as [_ Hsome].
  destruct (Hsome [pancakes_json] eq_refl eq_refl) as [recipes [Hr [_ Hn]]].
  unfold demo_fetch. rewrite Hr.
  destruct recipes as [|recipe [|other recipes]]; try discriminate Hn.
  vm_compute in Hn. injection Hn as <-. reflexivity.
Defined.

(** C3, as stated, fails: an HTTP 200 answer with one result that has no
    analyzed instructions makes [fetch_recipes] raise [IndexError] instead
    of returning one recipe for it. *)
Lemma ok_answer_without_instructions_raises :
  status_code toast_found = 200
  /\ json toast_found
     = Return (PDict [("results", PList [toast_json]);
                      ("totalResults", PInt 1)])
  /\ fst (demo_fetch [Return toast_found]) = Raise IndexError.
Proof. repeat split; reflexivity. Qed.

Lemma non_200_raises_status_and_message_witness :
  demo_fetch [Return unauthorized]
  = (Raise (Exception "Error fetching recipes: 401 You are not authorized."),
     [request_for demo_provider (PStr "pancakes") [] [] ["egg"; "milk"] [] 5])
  /\ fst (demo_fetch [Return teapot])
     = Raise (Exception "Error fetching recipes: 418 Unknown error").
Proof.
  unfold demo_fetch. split.
  - rewrite (@non_200_raises_status_and_message
               demo_interpreter (served [Return unauthorized])
               demo_provider (PStr "pancakes") [] [] ["egg"; "milk"] [] 5 []
               unauthorized _ eq_refl ltac:(discriminate) eq_refl).
    reflexivity.
  - rewrite (@non_200_raises_status_and_message
               demo_interpreter (served [Return teapot])
               demo_provider (PStr "pancakes") [] [] ["egg"; "milk"] [] 5 []
               teapot _ eq_refl ltac:(discriminate) eq_refl).
    reflexivity.
Defined.

(** C7, as stated, fails: on a 502 answer whose body is not JSON,
    [response.json()] raises before the status is looked at, and the error
    that leaves [fetch_recipes] carries neither the status code nor
    [Unknown error]. *)
Lemma non_200_without_json_body_raises_decode_error :
  status_code bad_gateway = 502
  /\ fst (demo_fetch [Return bad_gateway])
     = Raise (JSONDecodeError "Expecting value: line 1 column 1 (char 0)")
  /\ (forall msg, fst (demo_fetch [Return bad_gateway])
                  <> Raise (Exception msg)).
Proof. repeat split; try reflexivity. intros msg. discriminate. Qed.



(** ** The orchestrator *)

Section Orchestrator.

Context `{Interpreter} `{LanguageModel}.
Context {P F : Type} `{RecipeProvider P} `{RecipeFormatter F}.

(** The parse step does not reply and sends nothing to the provider. *)
Lemma parse_user_message_quiet (message : Message) (w : World) :
  replies (snd (parse_user_message message w)) = replies w
  /\ http_requests (snd (parse_user_message message w)) = http_requests w.
Proof.
  destruct (completion (length (lm_calls w)) (prompt message)) as [c|e] eqn:Hc.
  - rewrite (parse_user_message_return _ _ _ Hc). split; reflexivity.
  - rewrite (parse_user_message_raise _ _ _ Hc). split; reflexivity.
Qed.

Lemma retry_loop_quiet (message : Message) (attempts : Z) (todo : list Z) :
  forall w,
    replies (snd (retry_loop message attempts todo w)) = replies w
    /\ http_requests (snd (retry_loop message attempts todo w))
       = http_requests w.
Proof.
  induction todo as [|attempt todo IH]; intros w; [split; reflexivity|].
  rewrite retry_loop_cons.
  pose proof (parse_user_message_quiet message (announced (attempt + 1) w))
    as [Hr Hh].
  destruct (parse_user_message message (announced (attempt + 1) w))
    as [[v|e] w']; cbn [snd] in *; [split; assumption|].
  destruct (is_JSONDecodeError e && (attempt <? attempts - 1));
    [|split; assumption].
  destruct (IH w') as [Hr' Hh']. rewrite Hr', Hh'. split; assumption.
Qed.

Lemma parse_with_retries_quiet (message : Message) (attempts : Z) (w : World) :
  replies (snd (parse_user_message_with_retries message attempts w))
  = replies w
  /\ http_requests (snd (parse_user_message_with_retries message attempts w))
     = http_requests w.
Proof. apply retry_loop_quiet. Qed.

(** The rendering loop replies with one text per recipe, in order. *)
Lemma for_each_add_reply {A} (text_of : A -> string) (l : list A) :
  forall w,
    exists w',
      for_each l (fun x => add_reply (text_of x)) w = (Return tt, w')
      /\ replies w' = replies w ++ map text_of l
      /\ http_requests w' = http_requests w
      /\ lm_calls w' = lm_calls w.
Proof.
  induction l as [|x l IH]; intros w.
  - exists w. cbn. rewrite app_nil_r. repeat split; reflexivity.
  - destruct (IH (replied (text_of x) w)) as [w' [Hrun [Hr [Hh Hl]]]].
    exists w'. cbn [for_each map]. unfold bind, add_reply at 1.
    rewrite Hrun, Hr, Hh, Hl. cbn [replied replies http_requests lm_calls].
    rewrite <- app_assoc. repeat split; reflexivity.
Qed.

(** The top-level handler: one log record and one reply per error. *)
Lemma run_handles (self : Agent P F) (user_message : Message) (w : World) :
  run self user_message w
  = match __run self user_message w with
    | (Return a, w') => (Return a, w')
    | (Raise e, w') =>
        (Return tt,
         replied (error_reply e) (logged (exn_str e) (Some ERROR) w'))
    end.
Proof.
  unfold run, try_except, error_reply.
  destruct (__run self user_message w) as [[a|e] w']; [reflexivity|].
  destruct (is_JSONDecodeError e); reflexivity.
Qed.

(** [__run] on the capability path. *)
Lemma __run_capability
  (self : Agent P F) (user_message : Message) (w w1 : World)
  (parsed : list (string * pyval)) (message : string) :
  parse_user_message_with_retries user_message 3 w
  = (Return (PDict parsed), w1) ->
  lookup "message" parsed = Some (PStr message) ->
  __run self user_message w
  = (Return tt,
     replied message
       (logged ("Parsed user's preferences: " +++ py_str (PDict parsed))
               (Some DEBUG) w1)).
Proof.
  intros Hparse Hmessage. unfold __run. unfold bind at 1. rewrite Hparse.
  unfold bind at 1. unfold add_agent_log at 1.
  unfold bind at 1. unfold lift at 1. unfold py_get. rewrite Hmessage.
  reflexivity.
Qed.

(** [__run] when the parse step raises, and when it returns something that
    is not an object. *)
Lemma __run_parse_raises
  (self : Agent P F) (user_message : Message) (w w1 : World) (e : exn) :
  parse_user_message_with_retries user_message 3 w = (Raise e, w1) ->
  __run self user_message w = (Raise e, w1).
Proof.
  intros Hparse. unfold __run. unfold bind at 1. rewrite Hparse. reflexivity.
Qed.

Lemma __run_not_object
  (self : Agent P F) (user_message : Message) (w w1 : World) (parsed : pyval) :
  parse_user_message_with_retries user_message 3 w = (Return parsed, w1) ->
  is_dict parsed = false ->
  __run self user_message w
  = (Raise AttributeError,
     logged ("Parsed user's preferences: " +++ py_str parsed) (Some DEBUG) w1).
Proof.
  intros Hparse Hnot. unfold __run. unfold bind at 1. rewrite Hparse.
  unfold bind at 1. unfold add_agent_log at 1.
  unfold bind at 1. unfold lift at 1.
  destruct parsed; try discriminate; reflexivity.
Qed.

(** C4: when the parsed output is an object with a string under
    [message], [run] ends normally after one reply, which is that string;
    the provider is not called, whichever provider the agent holds: no
    request leaves, and the final world is the one after the parse with one
    log record and that reply added. *)
Theorem capability_question_gets_one_reply
  (self : Agent P F) (user_message : Message) (w w1 : World)
  (parsed : list (string * pyval)) (message : string) :
  parse_user_message_with_retries user_message 3 w
  = (Return (PDict parsed), w1) ->
  lookup "message" parsed = Some (PStr message) ->
  run self user_message w
  = (Return tt,
     replied message
       (logged ("Parsed user's preferences: " +++ py_str (PDict parsed))
               (Some DEBUG) w1))
  /\ replies (snd (run self user_message w)) = replies w ++ [message]
  /\ http_requests (snd (run self user_message w)) = http_requests w.
Proof.
  intros Hparse Hmessage.
  pose proof (parse_with_retries_quiet user_message 3 w) as [Hr Hh].
  rewrite Hparse in Hr, Hh. cbn [snd] in Hr, Hh.
  rewrite run_handles.
  rewrite (__run_capability self user_message w w1 parsed message
             Hparse Hmessage).
  cbn [snd replied logged replies http_requests].
  rewrite Hr, Hh. repeat split; reflexivity.
Qed.

Lemma py_get_get_or (d : list (string * pyval)) (key : string)
  (default : pyval) :
  py_get (PDict d) key default = Return (get_or d key default).
Proof. unfold py_get, get_or. destruct (lookup key d); reflexivity. Qed.

(** [__run] on the search path: after the parse, the log record and the
    status reply, everything hangs on what the provider and the log of the
    fetched recipes do. *)
Lemma __run_search (self : Agent P F) (user_message : Message) (w w1 : World)
  (parsed : list (string * pyval)) :
  parse_user_message_with_retries user_message 3 w
  = (Return (PDict parsed), w1) ->
  capability_message (PDict parsed) = None ->
  __run self user_message w
  = let w3 :=
      replied preparing_reply
        (logged ("Parsed user's preferences: " +++ py_str (PDict parsed))
                (Some DEBUG) w1) in
    match fetch_recipes (recipe_provider self)
            (get_or parsed "query" (PStr ""))
            (get_or parsed "include_cuisines" (PList []))
            (get_or parsed "exclude_cuisines" (PList []))
            (get_or parsed "include_ingredients" (PList []))
            (get_or parsed "exclude_ingredients" (PList []))
            5 (http_requests w1) with
    | (Raise e, sent) => (Raise e, with_requests sent w3)
    | (Return recipes, sent) =>
        match fetched_log recipes with
        | Raise e => (Raise e, with_requests sent w3)
        | Return log =>
            let w5 := logged log None (with_requests sent w3) in
            if (length recipes =? 0)%nat
            then (Return tt, replied no_recipes_reply w5)
            else
              for_each recipes
                (fun recipe =>
                   add_reply (transform_to_text (formatter self) recipe))
                (replied (found_reply (length recipes)) w5)
        end
    end.
Proof.
  intros Hparse Hcap. unfold __run. unfold bind at 1. rewrite Hparse.
  unfold bind at 1. unfold add_agent_log at 1.
  unfold bind at 1. unfold lift at 1. rewrite py_get_get_or.
  assert (Hsearch :
            match get_or parsed "message" PNone with
            | PStr _ => False
            | _ => True
            end).
  { unfold capability_message in Hcap. unfold get_or.
    destruct (lookup "message" parsed) as [[| | | |m| |]|];
      try exact I. discriminate. }
  cbv zeta.
  destruct (get_or parsed "message" PNone); try contradiction;
    (unfold bind at 1; unfold add_reply at 1;
     rewrite !py_get_get_or; unfold bind, lift, on_network;
     cbn [replied logged http_requests];
     destruct (fetch_recipes _ _ _ _ _ _ _ _) as [[recipes|e] sent];
     [|reflexivity];
     destruct (fetched_log recipes) as [log|e]; [|reflexivity];
     unfold add_agent_log, add_reply;
     destruct (length recipes =? 0)%nat; reflexivity).
Qed.

Lemma instructions_str_total (instructions : list RecipeInstruction.t) :
  forallb
    (fun instruction =>
       match RecipeInstruction.step instruction with
       | PStr _ => true
       | _ => false
       end) instructions = true ->
  returned (omap RecipeInstruction.__str__ instructions) = true.
Proof.
  induction instructions as [|i l IH]; intros Hall; [reflexivity|].
  cbn [forallb] in Hall. apply andb_prop in Hall. destruct Hall as [Hi Hl].
  cbn [omap]. unfold RecipeInstruction.__str__ at 1.
  destruct (RecipeInstruction.step i); try discriminate. cbn [obind].
  specialize (IH Hl). destruct (omap RecipeInstruction.__str__ l);
    [reflexivity | discriminate].
Qed.

(** With string steps, the log of the fetched recipes can be written. *)
Lemma fetched_log_total (recipes : list Recipe.t) :
  steps_are_str recipes = true -> returned (fetched_log recipes) = true.
Proof.
  intros Hall. unfold fetched_log.
  assert (Hstr : returned (omap Recipe.__str__ recipes) = true).
  { induction recipes as [|r l IH]; [reflexivity|].
    unfold steps_are_str in Hall. cbn [forallb] in Hall.
    apply andb_prop in Hall. destruct Hall as [Hr Hl].
    cbn [omap]. unfold Recipe.__str__ at 1.
    pose proof (instructions_str_total _ Hr) as Hi.
    destruct (omap RecipeInstruction.__str__ (Recipe.instructions r));
      [|discriminate].
    cbn [obind]. specialize (IH Hl).
    destruct (omap Recipe.__str__ l); [reflexivity | discriminate]. }
  destruct (omap Recipe.__str__ recipes); [reflexivity | discriminate].
Qed.

(** C5, as amended: when the fetch returns [N > 0] recipes whose
    instruction steps are all strings, [run] ends normally and its replies
    are the status reply, then one [Found N recipes for you], then the [N]
    formatted recipes, one per recipe, in the order the provider returned
    them. *)
Theorem found_reply_then_one_reply_per_recipe
  (self : Agent P F) (user_message : Message) (w w1 : World)
  (parsed : list (string * pyval)) (recipes : list Recipe.t)
  (sent : list Request) :
  parse_user_message_with_retries user_message 3 w
  = (Return (PDict parsed), w1) ->
  capability_message (PDict parsed) = None ->
  fetch_recipes (recipe_provider self)
    (get_or parsed "query" (PStr ""))
    (get_or parsed "include_cuisines" (PList []))
    (get_or parsed "exclude_cuisines" (PList []))
    (get_or parsed "include_ingredients" (PList []))
    (get_or parsed "exclude_ingredients" (PList []))
    5 (http_requests w) = (Return recipes, sent) ->
  recipes <> [] ->
  steps_are_str recipes = true ->
  fst (run self user_message w) = Return tt
  /\ replies (snd (run self user_message w))
     = replies w
       ++ [preparing_reply; found_reply (length recipes)]
       ++ map (transform_to_text (formatter self)) recipes.
Proof.
  intros Hparse Hcap Hfetch Hne Hsteps.
  pose proof (parse_with_retries_quiet user_message 3 w) as [Hr Hh].
  rewrite Hparse in Hr, Hh. cbn [snd] in Hr, Hh.
  rewrite run_handles, (__run_search self user_message w w1 parsed Hparse Hcap).
  cbv zeta. rewrite Hh, Hfetch.
  pose proof (fetched_log_total recipes Hsteps) as Hlog.
  destruct (fetched_log recipes) as [log|e]; [|discriminate].
  destruct recipes as [|recipe recipes]; [contradiction|].
  change (length (recipe :: recipes) =? 0)%nat with false. cbv iota.
  match goal with
  | |- context [for_each ?l ?body ?w0] =>
      destruct (for_each_add_reply (transform_to_text (formatter self)) l w0)
        as [w' [Hrun [Hreplies _]]]
  end.
  rewrite Hrun. cbn [fst snd]. split; [reflexivity|].
  rewrite Hreplies. cbn [replied logged with_requests replies].
  rewrite Hr, <- !app_assoc. reflexivity.
Qed.

(** C1, as amended: when [__run] fails, [run] ends normally and the handler
    adds exactly one error reply, the last reply of the request.  It is the
    only reply when the parse step failed or the parsed value is not an
    object; when the parsed value is an object the failure lies in the fetch
    or after it, and the error reply is preceded by the status reply alone:
    no [Found] reply and no recipe. *)
Theorem failure_gets_one_error_reply
  (self : Agent P F) (user_message : Message) (w : World) (e : exn) :
  fst (__run self user_message w) = Raise e ->
  fst (run self user_message w) = Return tt
  /\ match fst (parse_user_message_with_retries user_message 3 w) with
     | Return (PDict _) =>
         replies (snd (run self user_message w))
         = replies w ++ [preparing_reply; error_reply e]
     | _ =>
         replies (snd (run self user_message w))
         = replies w ++ [error_reply e]
     end.
Proof.
  intros Hfail. rewrite run_handles.
  pose proof (parse_with_retries_quiet user_message 3 w) as [Hr Hh].
  destruct (parse_user_message_with_retries user_message 3 w)
    as [[parsed|e'] w1] eqn:Hparse; cbn [snd fst] in *.
  - destruct (capability_message parsed) as [message|] eqn:Hcap.
    + (* a capability description: [__run] cannot have failed *)
      exfalso. destruct parsed as [| | | | | |d]; try discriminate.
      unfold capability_message in Hcap.
      destruct (lookup "message" d) as [[| | | |m| |]|] eqn:Hm;
        try discriminate.
      pose proof (__run_capability self user_message
                    w w1 d m Hparse Hm) as Hrun.
      rewrite Hrun in Hfail. discriminate.
    + destruct parsed as [| | | | | |d].
      1-6: (rewrite (__run_not_object self user_message w w1 _ Hparse eq_refl)
              in *;
            cbn [fst] in Hfail; injection Hfail as <-;
            cbn [fst snd replied logged replies];
            rewrite Hr; split; reflexivity).
      rewrite (__run_search self user_message w w1 d Hparse Hcap) in *.
      cbv zeta in *.
      destruct (fetch_recipes _ _ _ _ _ _ _ _) as [[recipes|e1] sent].
      * destruct (fetched_log recipes) as [log|e2].
        -- exfalso. destruct (length recipes =? 0)%nat; [discriminate|].
           match type of Hfail with
           | context [for_each ?l ?body ?w0] =>
               destruct (for_each_add_reply
                           (transform_to_text (formatter self)) l w0)
                 as [w' [Hrun _]]
           end.
           rewrite Hrun in Hfail. discriminate.
        -- cbn [fst] in Hfail. injection Hfail as <-.
           cbn [fst snd replied logged with_requests replies].
           rewrite Hr, <- app_assoc. split; reflexivity.
      * cbn [fst] in Hfail. injection Hfail as <-.
        cbn [fst snd replied logged with_requests replies].
        rewrite Hr, <- app_assoc. split; reflexivity.
  - rewrite (__run_parse_raises self user_message w w1 e' Hparse) in *.
    cbn [fst] in Hfail. injection Hfail as <-.
    cbn [fst snd replied logged replies]. rewrite Hr. split; reflexivity.
Qed.

End Orchestrator.

Lemma capability_question_gets_one_reply_witness :
  replies (snd (demo_run [Return capability_json] [])) = ["I find recipes"]
  /\ http_requests (snd (demo_run [Return capability_json] [])) = [].
Proof.
  assert (Hparse : demo_parse [Return capability_json]
                   = (Return (PDict [("message", PStr "I find recipes")]),
                      snd (demo_parse [Return capability_json])))
    by (vm_compute; reflexivity).
  destruct (@capability_question_gets_one_reply
              demo_interpreter (scripted [Return capability_json]) _ _
              (@SpoonacularRecipeProvider_provider demo_interpreter (served []))
              (@MarkdownRecipeFormatter_formatter demo_interpreter)
              demo_agent hello empty_world _ _ "I find recipes"
              Hparse eq_refl) as [_ [Hreplies Hrequests]].
  split; [exact Hreplies | exact Hrequests].
Defined.

Lemma found_reply_then_one_reply_per_recipe_witness :
  fst (demo_run [Return "{}"] [Return pancakes_found]) = Return tt
  /\ replies (snd (demo_run [Return "{}"] [Return pancakes_found]))
     = [preparing_reply; "Found 1 recipes for you";
        @markdown_transform_to_text demo_interpreter
          MarkdownRecipeFormatter_new pancakes].
Proof.
  assert (Hparse : demo_parse [Return "{}"]
                   = (Return (PDict []), snd (demo_parse [Return "{}"])))
    by (vm_compute; reflexivity).
  assert (Hne : [pancakes] <> []) by discriminate.
  exact (@found_reply_then_one_reply_per_recipe
           demo_interpreter (scripted [Return "{}"]) _ _
           (@SpoonacularRecipeProvider_provider demo_interpreter
              (served [Return pancakes_found]))
           (@MarkdownRecipeFormatter_formatter demo_interpreter)
           demo_agent hello empty_world _ [] [pancakes]
           [request_for demo_provider (PStr "") [] [] [] [] 5]
           Hparse eq_refl eq_refl Hne eq_refl).
Defined.

Lemma failure_gets_one_error_reply_witness :
  fst (demo_run [Return "{}"] [Return unauthorized]) = Return tt
  /\ replies (snd (demo_run [Return "{}"] [Return unauthorized]))
     = [preparing_reply; went_wrong_reply].
Proof.
  assert (Hfail : fst (demo___run [Return "{}"] [Return unauthorized])
                  = Raise (Exception
                      "Error fetching recipes: 401 You are not authorized."))
    by (vm_compute; reflexivity).
  exact (@failure_gets_one_error_reply
           demo_interpreter (scripted [Return "{}"]) _ _
           (@SpoonacularRecipeProvider_provider demo_interpreter
              (served [Return unauthorized]))
           (@MarkdownRecipeFormatter_formatter demo_interpreter)
           demo_agent hello empty_world _ Hfail).
Defined.

(** C1, as stated, fails: when the search API refuses the request, the user
    gets two replies, the status reply and then the apology. *)
Lemma provider_error_gets_two_replies :
  fst (demo___run [Return "{}"] [Return unauthorized])
  = Raise (Exception "Error fetching recipes: 401 You are not authorized.")
  /\ replies (snd (demo_main [Return "{}"] [Return unauthorized]))
     = ["Preparing recipes to match your taste";
        "Something went wrong, please be patient until developer fixes it"]
  /\ length (replies (snd (demo_main [Return "{}"] [Return unauthorized])))
     <> 1%nat.
Proof. repeat split; try (vm_compute; reflexivity). vm_compute. discriminate. Qed.

(** C5, as stated, fails: the fetch succeeds with one recipe whose step has
    no text, so its [step] is [None]; writing the log of the fetched recipes
    then raises [TypeError] ([__str__] of the instruction returns a
    non-string), and the user gets the apology instead of a [Found] reply
    and the recipe. *)
Lemma recipe_with_textless_step_gets_apology :
  fst (demo_fetch_all [Return porridge_found]) = Return [porridge]
  /\ @fetched_log demo_interpreter [porridge] = Raise TypeError
  /\ replies (snd (demo_main [Return "{}"] [Return porridge_found]))
     = ["Preparing recipes to match your taste";
        "Something went wrong, please be patient until developer fixes it"].
Proof. repeat split; vm_compute; reflexivity. Qed.

(** * Further properties *)

(** ** The retry loop, for every [attempts] *)

Section RetryLoop.

Context `{Interpreter} `{LanguageModel}.

Lemma malformed_raises (c : string) :
  malformed c = true -> exists msg, json_loads c = Raise (JSONDecodeError msg).
Proof.
  unfold malformed. destruct (json_loads c) as [v|e]; [discriminate|].
  destruct e; try discriminate. intros _. eexists. reflexivity.
Qed.

(** The loop makes one completion call per attempt it runs, and runs at
    least one attempt when there is one to run. *)
Lemma retry_loop_calls (message : Message) (attempts : Z) (todo : list Z) :
  forall w,
    exists k,
      (k <= length todo)%nat
      /\ (todo <> [] -> (1 <= k)%nat)
      /\ lm_calls (snd (retry_loop message attempts todo w))
         = lm_calls w ++ repeat (prompt message) k.
Proof.
  induction todo as [|attempt todo IH]; intros w.
  - exists 0%nat. cbn. rewrite app_nil_r. repeat split; try lia. congruence.
  - rewrite retry_loop_cons.
    pose proof (parse_user_message_calls message (announced (attempt + 1) w))
      as Hcalls.
    destruct (parse_user_message message (announced (attempt + 1) w))
      as [[v|e] w']; cbn [snd] in *.
    + exists 1%nat. cbn [length repeat]. repeat split; try lia. exact Hcalls.
    + destruct (is_JSONDecodeError e && (attempt <? attempts - 1)).
      * destruct (IH w') as [k [Hk [_ Hl]]]. exists (S k).
        cbn [length repeat]. repeat split; try lia.
        rewrite Hl, Hcalls. cbn [announced logged lm_calls].
        rewrite <- app_assoc. reflexivity.
      * exists 1%nat. cbn [length repeat snd]. repeat split; try lia.
        exact Hcalls.
Qed.

(** X1: whatever [attempts] is and whatever the language model answers,
    [parse_user_message_with_retries] calls the model at least once and at
    most three times, every time on the same prompt. *)
Theorem retries_call_the_model_one_to_three_times
  (message : Message) (attempts : Z) (w : World) :
  exists k,
    (1 <= k <= 3)%nat
    /\ lm_calls (snd (parse_user_message_with_retries message attempts w))
       = lm_calls w ++ repeat (prompt message) k.
Proof.
  unfold parse_user_message_with_retries.
  destruct (retry_loop_calls message attempts (range 3) w) as [k [Hle [Hge Hl]]].
  exists k. split; [|exact Hl]. split.
  - apply Hge. discriminate.
  - exact Hle.
Qed.

(** X2: a first completion that is valid JSON is returned after that one
    call, for every [attempts], zero and negative ones included; the log
    holds the announcement of attempt 1 and the completion. *)
Theorem first_valid_completion_is_returned
  (message : Message) (attempts : Z) (w : World) (c : string) (v : pyval) :
  completion (length (lm_calls w)) (prompt message) = Return c ->
  json_loads c = Return v ->
  parse_user_message_with_retries message attempts w
  = (Return v, logged c None (called (prompt message) (announced 1 w))).
Proof.
  intros Hc Hv. unfold parse_user_message_with_retries.
  change (range 3) with [0; 1; 2]. rewrite retry_loop_cons.
  change (0 + 1) with 1.
  rewrite (parse_user_message_return message (announced 1 w) c Hc), Hv.
  reflexivity.
Qed.

(** What the loop does when every completion is malformed. *)
Lemma retries_all_malformed (message : Message) (attempts : Z) (w : World) :
  (forall n, exists c,
      completion n (prompt message) = Return c /\ malformed c = true) ->
  let r := parse_user_message_with_retries message attempts w in
  lm_calls (snd r)
  = lm_calls w
    ++ repeat (prompt message) (Z.to_nat (Z.max 1 (Z.min attempts 3)))
  /\ replies (snd r) = replies w
  /\ http_requests (snd r) = http_requests w
  /\ (attempts <= 3 -> exists msg, fst r = Raise (JSONDecodeError msg))
  /\ (3 < attempts -> fst r = Return PNone).
Proof.
  intros Hall r. subst r.
  destruct (Hall (length (lm_calls w))) as [c1 [H1 M1]].
  destruct (Hall (S (length (lm_calls w)))) as [c2 [H2 M2]].
  destruct (Hall (S (S (length (lm_calls w))))) as [c3 [H3 M3]].
  destruct (malformed_raises c1 M1) as [m1 E1].
  destruct (malformed_raises c2 M2) as [m2 E2].
  destruct (malformed_raises c3 M3) as [m3 E3].
  unfold parse_user_message_with_retries. change (range 3) with [0; 1; 2].
  destruct (Z_le_gt_dec attempts 1) as [Hle1|Hgt1].
  { rewrite (retry_loop_last message attempts 0 _ w c1 H1) by lia.
    replace (Z.max 1 (Z.min attempts 3)) with 1 by lia.
    cbn [fst snd]. repeat split; try reflexivity.
    - intros _. exists m1. exact E1.
    - intros Hgt. lia. }
  rewrite (retry_loop_malformed message attempts 0 _ w c1 H1 M1) by lia.
  destruct (Z_le_gt_dec attempts 2) as [Hle2|Hgt2].
  { rewrite (retry_loop_last message attempts 1 _ _ c2) by
      (try rewrite attempt_lm_count; try assumption; lia).
    replace (Z.max 1 (Z.min attempts 3)) with 2 by lia.
    cbn [fst snd]. repeat split; try reflexivity.
    - rewrite !attempt_lm_calls, <- !app_assoc. reflexivity.
    - intros _. exists m2. exact E2.
    - intros Hgt. lia. }
  rewrite (retry_loop_malformed message attempts 1 _ _ c2) by
    (try rewrite attempt_lm_count; try assumption; lia).
  destruct (Z_le_gt_dec attempts 3) as [Hle3|Hgt3].
  { rewrite (retry_loop_last message attempts 2 _ _ c3) by
      (try rewrite !attempt_lm_count; try assumption; lia).
    replace (Z.max 1 (Z.min attempts 3)) with 3 by lia.
    cbn [fst snd]. repeat split; try reflexivity.
    - rewrite !attempt_lm_calls, <- !app_assoc. reflexivity.
    - intros _. exists m3. exact E3.
    - intros Hgt. lia. }
  rewrite (retry_loop_malformed message attempts 2 _ _ c3) by
    (try rewrite !attempt_lm_count; try assumption; lia).
  replace (Z.max 1 (Z.min attempts 3)) with 3 by lia.
  cbn [retry_loop]. unfold ret. cbn [fst snd]. repeat split; try reflexivity.
  - rewrite !attempt_lm_calls, <- !app_assoc. reflexivity.
  - intros Hle. lia.
Qed.


End RetryLoop.

Lemma first_valid_completion_is_returned_witness :
  @parse_user_message_with_retries demo_interpreter (scripted [Return "{}"])
    hello 0 empty_world
  = (Return (PDict []),
     logged "{}" None (called (prompt hello) (announced 1 empty_world))).
Proof.
  exact (@first_valid_completion_is_returned
           demo_interpreter (scripted [Return "{}"]) hello 0 empty_world
           "{}" (PDict []) eq_refl eq_refl).
Defined.


(** ** The provider, on answers and filters of every kind *)

Section ProviderEdges.

Context `{Interpreter} `{Network}.

Lemma py_join_raises (sep : string) (v : pyval) (e : exn) :
  py_join sep v = Raise e -> e = TypeError.
Proof.
  unfold py_join. destruct v as [| | | | |l|]; try congruence.
  destruct (all_str l); congruence.
Qed.

(** [fetch_recipes] once its four filters have been joined. *)
Lemma fetch_recipes_sends_joined (self : SpoonacularRecipeProvider)
  (query f1 f2 f3 f4 : pyval) (c1 c2 c3 c4 : string) (max_amount : Z)
  (sent : list Request) :
  py_join "," f1 = Return c1 ->
  py_join "," f2 = Return c2 ->
  py_join "," f3 = Return c3 ->
  py_join "," f4 = Return c4 ->
  fetch_recipes self query f1 f2 f3 f4 max_amount sent
  = (read_response
       (requests_get (length sent)
          {| url := API_URL self;
             params := request_params self query c1 c2 c3 c4 max_amount |}),
     sent ++ [{| url := API_URL self;
                 params := request_params self query c1 c2 c3 c4
                                          max_amount |}]).
Proof.
  intros J1 J2 J3 J4.
  unfold fetch_recipes, SpoonacularRecipeProvider_provider,
    spoonacular_fetch_recipes.
  unfold bind at 1. unfold lift at 1. rewrite J1.
  unfold bind at 1. unfold lift at 1. rewrite J2.
  unfold bind at 1. unfold lift at 1. rewrite J3.
  unfold bind at 1. unfold lift at 1. rewrite J4.
  unfold bind at 1. unfold http_get. unfold read_response.
  destruct (requests_get (length sent) _) as [response|e]; [|reflexivity].
  cbn [obind]. unfold bind, lift, raise.
  destruct (json response) as [json_response|e]; [|reflexivity].
  cbn [obind].
  destruct (status_code response =? 200).
  - destruct (py_get json_response "results" (PList [])) as [recipes|e];
      [|reflexivity].
    cbn [obind]. destruct (py_iter recipes) as [results|e]; reflexivity.
  - destruct (py_get json_response "message" (PStr "Unknown error"));
      reflexivity.
Qed.

(** [fetch_recipes] when one of the joins fails. *)
Lemma fetch_recipes_join_fails (self : SpoonacularRecipeProvider)
  (query f1 f2 f3 f4 : pyval) (max_amount : Z) (sent : list Request) :
  returned (py_join "," f1) && returned (py_join "," f2)
  && returned (py_join "," f3) && returned (py_join "," f4) = false ->
  fetch_recipes self query f1 f2 f3 f4 max_amount sent
  = (Raise TypeError, sent).
Proof.
  intros Hfail.
  unfold fetch_recipes, SpoonacularRecipeProvider_provider,
    spoonacular_fetch_recipes.
  unfold bind at 1. unfold lift at 1.
  destruct (py_join "," f1) as [c1|e1] eqn:J1;
    [|rewrite (py_join_raises _ _ _ J1); reflexivity].
  unfold bind at 1. unfold lift at 1.
  destruct (py_join "," f2) as [c2|e2] eqn:J2;
    [|rewrite (py_join_raises _ _ _ J2); reflexivity].
  unfold bind at 1. unfold lift at 1.
  destruct (py_join "," f3) as [c3|e3] eqn:J3;
    [|rewrite (py_join_raises _ _ _ J3); reflexivity].
  unfold bind at 1. unfold lift at 1.
  destruct (py_join "," f4) as [c4|e4] eqn:J4;
    [|rewrite (py_join_raises _ _ _ J4); reflexivity].
  discriminate Hfail.
Qed.

(** Whatever the filters are, [fetch_recipes] sends no request or one, and
    the one it sends is built by [request_params]. *)
Lemma fetch_recipes_requests (self : SpoonacularRecipeProvider)
  (query f1 f2 f3 f4 : pyval) (max_amount : Z) (sent : list Request) :
  snd (fetch_recipes self query f1 f2 f3 f4 max_amount sent) = sent
  \/ exists c1 c2 c3 c4,
       snd (fetch_recipes self query f1 f2 f3 f4 max_amount sent)
       = sent ++ [{| url := API_URL self;
                     params := request_params self query c1 c2 c3 c4
                                              max_amount |}].
Proof.
  destruct (returned (py_join "," f1) && returned (py_join "," f2)
            && returned (py_join "," f3) && returned (py_join "," f4))
    eqn:Hjoins.
  - right.
    destruct (py_join "," f1) as [c1|] eqn:J1; [|discriminate].
    destruct (py_join "," f2) as [c2|] eqn:J2; [|discriminate].
    destruct (py_join "," f3) as [c3|] eqn:J3; [|discriminate].
    destruct (py_join "," f4) as [c4|] eqn:J4; [|discriminate].
    exists c1, c2, c3, c4.
    rewrite (fetch_recipes_sends_joined self query f1 f2 f3 f4 c1 c2 c3 c4
               max_amount sent J1 J2 J3 J4).
    reflexivity.
  - left. rewrite (fetch_recipes_join_fails _ _ _ _ _ _ _ _ Hjoins).
    reflexivity.
Qed.

(** X4: a filter that is not an iterable of strings ([None], a number, a
    list that holds a non-string) makes [fetch_recipes] raise [TypeError]
    before anything is sent: no request leaves. *)
Theorem ill_typed_filter_raises_before_the_request
  (self : SpoonacularRecipeProvider)
  (query f1 f2 f3 f4 : pyval) (max_amount : Z) (sent : list Request) :
  returned (py_join "," f1) && returned (py_join "," f2)
  && returned (py_join "," f3) && returned (py_join "," f4) = false ->
  fetch_recipes self query f1 f2 f3 f4 max_amount sent
  = (Raise TypeError, sent).
Proof. apply fetch_recipes_join_fails. Qed.

(** X5: a filter given as one string instead of a list is joined character
    by character: in the request [fetch_recipes] sends, the parameter of
    every filter that is a string ([cuisine], [excludeCuisine],
    [includeIngredients] or [excludeIngredients]) holds the characters of
    that string separated by commas, whatever the other filters are. *)
Theorem string_filter_is_joined_by_character
  (self : SpoonacularRecipeProvider) (query f1 f2 f3 f4 : pyval)
  (max_amount : Z) (sent : list Request) (request : Request) :
  snd (fetch_recipes self query f1 f2 f3 f4 max_amount sent)
  = sent ++ [request] ->
  (forall s, f1 = PStr s ->
             lookup "cuisine" (params request)
             = Some (PStr (String.concat "," (chars s))))
  /\ (forall s, f2 = PStr s ->
                lookup "excludeCuisine" (params request)
                = Some (PStr (String.concat "," (chars s))))
  /\ (forall s, f3 = PStr s ->
                lookup "includeIngredients" (params request)
                = Some (PStr (String.concat "," (chars s))))
  /\ (forall s, f4 = PStr s ->
                lookup "excludeIngredients" (params request)
                = Some (PStr (String.concat "," (chars s)))).
Proof.
  intros Hsent.
  destruct (returned (py_join "," f1) && returned (py_join "," f2)
            && returned (py_join "," f3) && returned (py_join "," f4))
    eqn:Hjoins.
  - destruct (py_join "," f1) as [c1|] eqn:J1; [|discriminate].
    destruct (py_join "," f2) as [c2|] eqn:J2; [|discriminate].
    destruct (py_join "," f3) as [c3|] eqn:J3; [|discriminate].
    destruct (py_join "," f4) as [c4|] eqn:J4; [|discriminate].
    rewrite (fetch_recipes_sends_joined self query f1 f2 f3 f4 c1 c2 c3 c4
               max_amount sent J1 J2 J3 J4) in Hsent.
    cbn [snd] in Hsent. apply app_inj_tail in Hsent.
    destruct Hsent as [_ <-]. cbn [params request_params lookup String.eqb
                                   Ascii.eqb Bool.eqb].
    repeat split; intros s ->; cbn [py_join] in *; congruence.
  - rewrite (fetch_recipes_join_fails _ _ _ _ _ _ _ _ Hjoins) in Hsent.
    cbn [snd] in Hsent. apply (f_equal (@length _)) in Hsent.
    rewrite length_app in Hsent. cbn [length] in Hsent. lia.
Qed.

(** X6: when [requests.get] raises, that error leaves [fetch_recipes] as it
    is, after the one request; nothing is retried. *)
Theorem transport_error_leaves_fetch_recipes
  (self : SpoonacularRecipeProvider) (query : pyval)
  (ic ec ii ei : list string) (max_amount : Z) (sent : list Request)
  (e : exn) :
  requests_get (length sent) (request_for self query ic ec ii ei max_amount)
  = Raise e ->
  fetch_recipes self query (str_list ic) (str_list ec) (str_list ii)
                (str_list ei) max_amount sent
  = (Raise e, sent ++ [request_for self query ic ec ii ei max_amount]).
Proof. intros Hget. rewrite fetch_recipes_sends, Hget. reflexivity. Qed.

(** X7: the body is decoded before the status is looked at: when
    [response.json()] raises, that error leaves [fetch_recipes] whatever
    the status code is, 200 included. *)
Theorem undecodable_body_raises_whatever_the_status
  (self : SpoonacularRecipeProvider) (query : pyval)
  (ic ec ii ei : list string) (max_amount : Z) (sent : list Request)
  (response : Response) (e : exn) :
  requests_get (length sent) (request_for self query ic ec ii ei max_amount)
  = Return response ->
  json response = Raise e ->
  fetch_recipes self query (str_list ic) (str_list ec) (str_list ii)
                (str_list ei) max_amount sent
  = (Raise e, sent ++ [request_for self query ic ec ii ei max_amount]).
Proof.
  intros Hget Hjson. rewrite fetch_recipes_sends, Hget.
  unfold read_response. cbn [obind]. rewrite Hjson. reflexivity.
Qed.

(** X8: a body that is JSON but not an object (a list, a string, a number,
    [null]) makes [fetch_recipes] raise [AttributeError], on status 200 and
    on every other status alike. *)
Theorem body_that_is_no_object_raises_AttributeError
  (self : SpoonacularRecipeProvider) (query : pyval)
  (ic ec ii ei : list string) (max_amount : Z) (sent : list Request)
  (response : Response) (body : pyval) :
  requests_get (length sent) (request_for self query ic ec ii ei max_amount)
  = Return response ->
  json response = Return body ->
  is_dict body = false ->
  fetch_recipes self query (str_list ic) (str_list ec) (str_list ii)
                (str_list ei) max_amount sent
  = (Raise AttributeError,
     sent ++ [request_for self query ic ec ii ei max_amount]).
Proof.
  intros Hget Hjson Hbody. rewrite fetch_recipes_sends, Hget.
  unfold read_response. cbn [obind]. rewrite Hjson. cbn [obind].
  destruct body; try discriminate;
    destruct (status_code response =? 200); reflexivity.
Qed.

(** X9: on status 200, a [results] key that is present but holds [null], a
    boolean or a number (anything [for] cannot iterate) raises [TypeError];
    only an absent key is taken as the empty list. *)
Theorem results_that_cannot_be_iterated_raise_TypeError
  (self : SpoonacularRecipeProvider) (query : pyval)
  (ic ec ii ei : list string) (max_amount : Z) (sent : list Request)
  (response : Response) (body : list (string * pyval)) (results : pyval) :
  requests_get (length sent) (request_for self query ic ec ii ei max_amount)
  = Return response ->
  status_code response = 200 ->
  json response = Return (PDict body) ->
  lookup "results" body = Some results ->
  returned (py_iter results) = false ->
  fst (fetch_recipes self query (str_list ic) (str_list ec) (str_list ii)
                     (str_list ei) max_amount sent)
  = Raise TypeError.
Proof.
  intros Hget Hstatus Hjson Hresults Hiter. rewrite fetch_recipes_sends.
  cbn [fst]. rewrite Hget. unfold read_response. cbn [obind].
  rewrite Hjson, Hstatus. cbn [obind Z.eqb Pos.eqb py_get].
  rewrite Hresults. cbn [obind].
  destruct results; try discriminate; reflexivity.
Qed.

(** X10: of the instruction groups of a result only the first is read: two
    results that agree on every other key and on the first group build the
    same recipe, or fail alike, whatever groups follow. *)
Theorem later_instruction_groups_are_never_read
  (fields1 fields2 : list (string * pyval)) (group : pyval)
  (others1 others2 : list pyval) :
  (forall key, key <> "analyzedInstructions" ->
               lookup key fields1 = lookup key fields2) ->
  lookup "analyzedInstructions" fields1 = Some (PList (group :: others1)) ->
  lookup "analyzedInstructions" fields2 = Some (PList (group :: others2)) ->
  build_recipe (PDict fields1) = build_recipe (PDict fields2).
Proof.
  intros Hsame H1 H2. unfold build_recipe, py_get, py_getitem.
  rewrite H1, H2.
  rewrite (Hsame "title") by discriminate.
  rewrite (Hsame "likes") by discriminate.
  rewrite (Hsame "image") by discriminate.
  rewrite (Hsame "missedIngredients") by discriminate.
  rewrite (Hsame "usedIngredients") by discriminate.
  reflexivity.
Qed.

End ProviderEdges.

(** ** The orchestrator, on every path *)

Section OrchestratorPaths.

Context `{Interpreter} `{LanguageModel}.
Context {P F : Type} `{RecipeProvider P} `{RecipeFormatter F}.

Lemma parse_user_message_no_input (message : Message) (w : World) :
  input_requests (snd (parse_user_message message w)) = input_requests w.
Proof.
  destruct (completion (length (lm_calls w)) (prompt message)) as [c|e] eqn:Hc.
  - rewrite (parse_user_message_return _ _ _ Hc). reflexivity.
  - rewrite (parse_user_message_raise _ _ _ Hc). reflexivity.
Qed.

Lemma retry_loop_no_input (message : Message) (attempts : Z) (todo : list Z) :
  forall w,
    input_requests (snd (retry_loop message attempts todo w))
    = input_requests w.
Proof.
  induction todo as [|attempt todo IH]; intros w; [reflexivity|].
  rewrite retry_loop_cons.
  pose proof (parse_user_message_no_input message (announced (attempt + 1) w))
    as Hi.
  destruct (parse_user_message message (announced (attempt + 1) w))
    as [[v|e] w']; cbn [snd] in *; [exact Hi|].
  destruct (is_JSONDecodeError e && (attempt <? attempts - 1));
    [|exact Hi].
  rewrite IH. exact Hi.
Qed.

Lemma for_each_add_reply_no_input {A} (text_of : A -> string) (l : list A) :
  forall w,
    input_requests (snd (for_each l (fun x => add_reply (text_of x)) w))
    = input_requests w.
Proof.
  induction l as [|x l IH]; intros w; [reflexivity|].
  cbn [for_each]. unfold bind, add_reply at 1. rewrite IH. reflexivity.
Qed.

(** What one [run] leaves behind, on every path: it ends normally; the
    completion calls are those of the parse step; no input is asked for;
    the earlier replies are kept and at least one is added; and the
    requests are untouched unless the parse gave an object without a
    capability message, in which case they are what the one provider call
    left. *)
Lemma run_frame (self : Agent P F) (user_message : Message) (w : World) :
  fst (run self user_message w) = Return tt
  /\ lm_calls (snd (run self user_message w))
     = lm_calls (snd (parse_user_message_with_retries user_message 3 w))
  /\ input_requests (snd (run self user_message w)) = input_requests w
  /\ (exists reply more,
         replies (snd (run self user_message w))
         = replies w ++ reply :: more)
  /\ (http_requests (snd (run self user_message w)) = http_requests w
      \/ exists parsed,
           fst (parse_user_message_with_retries user_message 3 w)
           = Return (PDict parsed)
           /\ http_requests (snd (run self user_message w))
              = snd (fetch_recipes (recipe_provider self)
                       (get_or parsed "query" (PStr ""))
                       (get_or parsed "include_cuisines" (PList []))
                       (get_or parsed "exclude_cuisines" (PList []))
                       (get_or parsed "include_ingredients" (PList []))
                       (get_or parsed "exclude_ingredients" (PList []))
                       5 (http_requests w))).
Proof.
  rewrite run_handles.
  pose proof (parse_with_retries_quiet user_message 3 w) as [Hr Hh].
  pose proof (retry_loop_no_input user_message 3 (range 3) w) as Hi.
  fold (parse_user_message_with_retries user_message 3 w) in Hi.
  destruct (parse_user_message_with_retries user_message 3 w)
    as [[parsed|e] w1] eqn:Hparse; cbn [snd fst] in *.
  - destruct (capability_message parsed) as [message|] eqn:Hcap.
    + destruct parsed as [| | | | | |d]; try discriminate.
      unfold capability_message in Hcap.
      destruct (lookup "message" d) as [[| | | |m| |]|] eqn:Hm;
        try discriminate.
      rewrite (__run_capability self user_message w w1 d m Hparse Hm).
      cbn [fst snd replied logged replies lm_calls input_requests
             http_requests].
      rewrite Hr, Hi, Hh. repeat split; try reflexivity.
      * exists m, []. reflexivity.
      * left. reflexivity.
    + destruct parsed as [| | | | | |d].
      1-6: (rewrite (__run_not_object self user_message w w1 _ Hparse eq_refl);
            cbn [fst snd replied logged replies lm_calls input_requests
                   http_requests];
            rewrite Hr, Hi, Hh; repeat split; try reflexivity;
            [eexists; exists []; reflexivity | left; reflexivity]).
      rewrite (__run_search self user_message w w1 d Hparse Hcap).
      cbv zeta. rewrite Hh.
      destruct (fetch_recipes _ _ _ _ _ _ _ _) as [[recipes|e1] sent]
        eqn:Hfetch.
      * destruct (fetched_log recipes) as [log|e2].
        -- destruct (length recipes =? 0)%nat.
           ++ cbn [fst snd replied logged with_requests replies lm_calls
                     input_requests http_requests].
              rewrite Hr, Hi, <- app_assoc. repeat split; try reflexivity.
              ** eexists. eexists. reflexivity.
              ** right. exists d. rewrite Hfetch. split; reflexivity.
           ++ match goal with
              | |- context [for_each ?l ?body ?w0] =>
                  pose proof (for_each_add_reply_no_input
                                (transform_to_text (formatter self)) l w0)
                    as Hin;
                  destruct (for_each_add_reply
                              (transform_to_text (formatter self)) l w0)
                    as [w' [Hrun [Hrep [Hreq Hlm]]]]
              end.
              rewrite Hrun in *. cbn [fst snd] in *.
              rewrite Hrep, Hreq, Hlm, Hin.
              cbn [replied logged with_requests replies lm_calls
                     input_requests http_requests].
              rewrite Hr, Hi, <- !app_assoc. repeat split; try reflexivity.
              ** eexists. eexists. reflexivity.
              ** right. exists d. rewrite Hfetch. split; reflexivity.
        -- cbn [fst snd replied logged with_requests replies lm_calls
                  input_requests http_requests].
           rewrite Hr, Hi, <- app_assoc. repeat split; try reflexivity.
           ++ eexists. eexists. reflexivity.
           ++ right. exists d. rewrite Hfetch. split; reflexivity.
      * cbn [fst snd replied logged with_requests replies lm_calls
               input_requests http_requests].
        rewrite Hr, Hi, <- app_assoc. repeat split; try reflexivity.
        -- eexists. eexists. reflexivity.
        -- right. exists d. rewrite Hfetch. split; reflexivity.
  - rewrite (__run_parse_raises self user_message w w1 e Hparse).
    cbn [fst snd replied logged replies lm_calls input_requests
           http_requests].
    rewrite Hr, Hi, Hh. repeat split; try reflexivity.
    + eexists. exists []. reflexivity.
    + left. reflexivity.
Qed.


(** X12: one [run] calls the language model at least once and at most three
    times, each time on the system prompt followed by the user message,
    and never asks the user for more input. *)
Theorem run_calls_the_model_one_to_three_times
  (self : Agent P F) (user_message : Message) (w : World) :
  (exists k,
      (1 <= k <= 3)%nat
      /\ lm_calls (snd (run self user_message w))
         = lm_calls w ++ repeat [system_prompt; user_message] k)
  /\ input_requests (snd (run self user_message w)) = input_requests w.
Proof.
  destruct (run_frame self user_message w) as [_ [Hlm [Hin _]]].
  split; [|exact Hin]. rewrite Hlm. unfold parse_user_message_with_retries.
  destruct (retry_loop_calls user_message 3 (range 3) w) as [k [Hle [Hge Hl]]].
  exists k. split; [|exact Hl]. split; [apply Hge; discriminate | exact Hle].
Qed.

(** X13: when the provider returns no recipe, the replies are the status
    reply and then the one that asks to be more specific; there is no
    [Found] reply and nothing is rendered. *)
Theorem no_recipes_gets_the_be_more_specific_reply
  (self : Agent P F) (user_message : Message) (w w1 : World)
  (parsed : list (string * pyval)) (sent : list Request) :
  parse_user_message_with_retries user_message 3 w
  = (Return (PDict parsed), w1) ->
  capability_message (PDict parsed) = None ->
  fetch_recipes (recipe_provider self)
    (get_or parsed "query" (PStr ""))
    (get_or parsed "include_cuisines" (PList []))
    (get_or parsed "exclude_cuisines" (PList []))
    (get_or parsed "include_ingredients" (PList []))
    (get_or parsed "exclude_ingredients" (PList []))
    5 (http_requests w) = (Return [], sent) ->
  fst (run self user_message w) = Return tt
  /\ replies (snd (run self user_message w))
     = replies w ++ [preparing_reply; no_recipes_reply].
Proof.
  intros Hparse Hcap Hfetch.
  pose proof (parse_with_retries_quiet user_message 3 w) as [Hr Hh].
  rewrite Hparse in Hr, Hh. cbn [snd] in Hr, Hh.
  rewrite run_handles, (__run_search self user_message w w1 parsed Hparse Hcap).
  cbv zeta. rewrite Hh, Hfetch. unfold fetched_log. cbn [omap obind length].
  change (0 =? 0)%nat with true. cbv iota.
  cbn [fst snd replied logged with_requests replies].
  rewrite Hr, <- app_assoc. split; reflexivity.
Qed.

(** X14: when every completion is malformed JSON, the request ends after
    three completion calls with the single reply [Please try again]; the
    provider is not called. *)
Theorem exhausted_retries_get_please_try_again
  (self : Agent P F) (user_message : Message) (w : World) :
  (forall n, exists c,
      completion n (prompt user_message) = Return c /\ malformed c = true) ->
  fst (run self user_message w) = Return tt
  /\ replies (snd (run self user_message w)) = replies w ++ [try_again_reply]
  /\ http_requests (snd (run self user_message w)) = http_requests w
  /\ lm_calls (snd (run self user_message w))
     = lm_calls w
       ++ [prompt user_message; prompt user_message; prompt user_message].
Proof.
  intros Hall.
  destruct (retries_all_malformed user_message 3 w Hall)
    as [Hcalls [Hr [Hh [Hraise _]]]].
  destruct Hraise as [msg Hmsg]; [lia|].
  rewrite run_handles.
  destruct (parse_user_message_with_retries user_message 3 w)
    as [o w1] eqn:Hparse. cbn [fst snd] in *. subst o.
  rewrite (__run_parse_raises self user_message w w1 _ Hparse).
  cbn [fst snd replied logged replies http_requests lm_calls error_reply
         is_JSONDecodeError].
  rewrite Hr, Hh, Hcalls. repeat split; reflexivity.
Qed.

(** X15: when the completion is valid JSON but not an object (a list, a
    string, a number, [null]), the request ends with the single reply
    [Something went wrong ...]; the provider is not called. *)
Theorem parsed_value_that_is_no_object_gets_the_apology
  (self : Agent P F) (user_message : Message) (w w1 : World)
  (parsed : pyval) :
  parse_user_message_with_retries user_message 3 w = (Return parsed, w1) ->
  is_dict parsed = false ->
  fst (run self user_message w) = Return tt
  /\ replies (snd (run self user_message w)) = replies w ++ [went_wrong_reply]
  /\ http_requests (snd (run self user_message w)) = http_requests w.
Proof.
  intros Hparse Hnot.
  pose proof (parse_with_retries_quiet user_message 3 w) as [Hr Hh].
  rewrite Hparse in Hr, Hh. cbn [snd] in Hr, Hh.
  rewrite run_handles, (__run_not_object self user_message w w1 _ Hparse Hnot).
  cbn [fst snd replied logged replies http_requests error_reply
         is_JSONDecodeError].
  rewrite Hr, Hh. repeat split; reflexivity.
Qed.

Lemma instructions_str_returned (instructions : list RecipeInstruction.t) :
  match omap RecipeInstruction.__str__ instructions with
  | Return _ =>
      forallb
        (fun instruction =>
           match RecipeInstruction.step instruction with
           | PStr _ => true
           | _ => false
           end) instructions = true
  | Raise e =>
      e = TypeError
      /\ forallb
           (fun instruction =>
              match RecipeInstruction.step instruction with
              | PStr _ => true
              | _ => false
              end) instructions = false
  end.
Proof.
  induction instructions as [|i l IH]; [reflexivity|].
  cbn [omap forallb]. unfold RecipeInstruction.__str__ at 1.
  destruct (RecipeInstruction.step i); cbn [obind andb];
    try (split; reflexivity).
  destruct (omap RecipeInstruction.__str__ l); cbn [obind]; exact IH.
Qed.

(** The log of the fetched recipes cannot be written when a step is not a
    string. *)
Lemma fetched_log_raises (recipes : list Recipe.t) :
  steps_are_str recipes = false -> fetched_log recipes = Raise TypeError.
Proof.
  intros Hsome. unfold fetched_log.
  assert (Hstr : omap Recipe.__str__ recipes = Raise TypeError).
  { induction recipes as [|r l IH]; [discriminate|].
    unfold steps_are_str in Hsome. cbn [forallb] in Hsome.
    cbn [omap]. unfold Recipe.__str__ at 1.
    pose proof (instructions_str_returned (Recipe.instructions r)) as Hi.
    destruct (omap RecipeInstruction.__str__ (Recipe.instructions r))
      as [strs|e].
    - rewrite Hi in Hsome. cbn [andb obind] in *.
      rewrite (IH Hsome). reflexivity.
    - destruct Hi as [-> _]. reflexivity. }
  rewrite Hstr. reflexivity.
Qed.

(** X16: when the provider returns recipes of which some instruction step
    is not a string, the log of the fetched recipes raises [TypeError] and
    the request ends with the status reply followed by the apology: no
    [Found] reply, no recipe. *)
Theorem recipes_with_a_step_that_is_no_string_get_the_apology
  (self : Agent P F) (user_message : Message) (w w1 : World)
  (parsed : list (string * pyval)) (recipes : list Recipe.t)
  (sent : list Request) :
  parse_user_message_with_retries user_message 3 w
  = (Return (PDict parsed), w1) ->
  capability_message (PDict parsed) = None ->
  fetch_recipes (recipe_provider self)
    (get_or parsed "query" (PStr ""))
    (get_or parsed "include_cuisines" (PList []))
    (get_or parsed "exclude_cuisines" (PList []))
    (get_or parsed "include_ingredients" (PList []))
    (get_or parsed "exclude_ingredients" (PList []))
    5 (http_requests w) = (Return recipes, sent) ->
  steps_are_str recipes = false ->
  fst (run self user_message w) = Return tt
  /\ replies (snd (run self user_message w))
     = replies w ++ [preparing_reply; went_wrong_reply].
Proof.
  intros Hparse Hcap Hfetch Hsteps.
  pose proof (parse_with_retries_quiet user_message 3 w) as [Hr Hh].
  rewrite Hparse in Hr, Hh. cbn [snd] in Hr, Hh.
  rewrite run_handles, (__run_search self user_message w w1 parsed Hparse Hcap).
  cbv zeta. rewrite Hh, Hfetch, (fetched_log_raises recipes Hsteps).
  cbn [fst snd replied logged with_requests replies error_reply
         is_JSONDecodeError].
  rewrite Hr, <- app_assoc. split; reflexivity.
Qed.

(** [run] on the rendering path. *)
Lemma run_renders_recipes
  (self : Agent P F) (user_message : Message) (w w1 : World)
  (parsed : list (string * pyval)) (recipes : list Recipe.t)
  (sent : list Request) :
  parse_user_message_with_retries user_message 3 w
  = (Return (PDict parsed), w1) ->
  capability_message (PDict parsed) = None ->
  fetch_recipes (recipe_provider self)
    (get_or parsed "query" (PStr ""))
    (get_or parsed "include_cuisines" (PList []))
    (get_or parsed "exclude_cuisines" (PList []))
    (get_or parsed "include_ingredients" (PList []))
    (get_or parsed "exclude_ingredients" (PList []))
    5 (http_requests w) = (Return recipes, sent) ->
  recipes <> [] ->
  steps_are_str recipes = true ->
  replies (snd (run self user_message w))
  = replies w
    ++ [preparing_reply; found_reply (length recipes)]
    ++ map (transform_to_text (formatter self)) recipes.
Proof.
  intros Hparse Hcap Hfetch Hne Hsteps.
  pose proof (parse_with_retries_quiet user_message 3 w) as [Hr Hh].
  rewrite Hparse in Hr, Hh. cbn [snd] in Hr, Hh.
  rewrite run_handles, (__run_search self user_message w w1 parsed Hparse Hcap).
  cbv zeta. rewrite Hh, Hfetch.
  pose proof (fetched_log_total recipes Hsteps) as Hlog.
  destruct (fetched_log recipes) as [log|e]; [|discriminate].
  destruct recipes as [|recipe recipes]; [contradiction|].
  change (length (recipe :: recipes) =? 0)%nat with false. cbv iota.
  match goal with
  | |- context [for_each ?l ?body ?w0] =>
      destruct (for_each_add_reply (transform_to_text (formatter self)) l w0)
        as [w' [Hrun [Hreplies _]]]
  end.
  rewrite Hrun. cbn [fst snd]. rewrite Hreplies.
  cbn [replied logged with_requests replies].
  rewrite Hr, <- !app_assoc. reflexivity.
Qed.

End OrchestratorPaths.

(** ** The domain model and the formatter *)

Section Rendering.

Context `{Interpreter}.

(** X17: [str(recipe)] is a string exactly when every instruction step of
    the recipe is a string; otherwise it raises [TypeError], because
    [RecipeInstruction.__str__] returns the step as it is. *)
Theorem recipe_str_needs_string_steps (recipe : Recipe.t) :
  match Recipe.__str__ recipe with
  | Return _ => steps_are_str [recipe] = true
  | Raise e => e = TypeError /\ steps_are_str [recipe] = false
  end.
Proof.
  unfold Recipe.__str__, steps_are_str. cbn [forallb].
  rewrite andb_true_r.
  pose proof (instructions_str_returned (Recipe.instructions recipe)) as Hi.
  destruct (omap RecipeInstruction.__str__ (Recipe.instructions recipe));
    cbn [obind]; exact Hi.
Qed.

Lemma append_assoc (a b c : string) : (a +++ b) +++ c = a +++ (b +++ c).
Proof.
  induction a as [|ch a IH]; [reflexivity|]. cbn. rewrite IH. reflexivity.
Qed.

Lemma nth_error_enumerate_from {A} (l : list A) :
  forall (n : Z) (k : nat) (x : A),
    nth_error l k = Some x ->
    nth_error (enumerate_from n l) k = Some (n + Z.of_nat k, x).
Proof.
  induction l as [|y l IH]; intros n k x Hk; [destruct k; discriminate|].
  destruct k as [|k].
  - cbn in *. injection Hk as ->. rewrite Z.add_0_r. reflexivity.
  - cbn [nth_error enumerate_from] in *. rewrite (IH (n + 1) k x Hk).
    f_equal. f_equal. lia.
Qed.

Lemma length_enumerate_from {A} (l : list A) :
  forall n, length (enumerate_from n l) = length l.
Proof.
  induction l as [|y l IH]; intros n; [reflexivity|].
  cbn. rewrite IH. reflexivity.
Qed.

(** X18: the text of a recipe ends with the [Steps] section, which has one
    line per instruction, in the order of the recipe, the [k]-th line
    (from 0) being [k + 1], a dot, a space and the step. *)
Theorem steps_are_numbered_from_one_in_order
  (self : MarkdownRecipeFormatter) (recipe : Recipe.t) :
  exists head lines,
    transform_to_text self recipe
    = head +++ "##### Steps" +++ nl +++ String.concat nl lines +++ nl
    /\ length lines = length (Recipe.instructions recipe)
    /\ forall k instruction,
         nth_error (Recipe.instructions recipe) k = Some instruction ->
         nth_error lines k
         = Some (str_of_int (Z.of_nat k + 1) +++ ". "
                 +++ py_str (RecipeInstruction.step instruction)).
Proof.
  exists (nl +++ "### " +++ py_str (Recipe.title recipe) +++ nl
          +++ nl
          +++ "Likes: " +++ py_str (Recipe.likes recipe) +++ nl
          +++ nl
          +++ "![Recipe Image](" +++ py_str (Recipe.image recipe) +++ ")" +++ nl
          +++ nl
          +++ "##### Ingredients" +++ nl
          +++ (nl +++ "| Ingredient | Image |" +++ nl
               +++ "|------------|-------|" +++ nl
               +++ String.concat nl
                     (map markdown_bulletpoint (Recipe.ingredients recipe))
               +++ nl) +++ nl
          +++ nl).
  exists (map markdown_step (enumerate (Recipe.instructions recipe))).
  split; [|split].
  - unfold transform_to_text, MarkdownRecipeFormatter_formatter,
      markdown_transform_to_text.
    repeat rewrite append_assoc. reflexivity.
  - rewrite length_map. apply length_enumerate_from.
  - intros k instruction Hk. unfold enumerate.
    rewrite nth_error_map,
      (nth_error_enumerate_from _ 0 k instruction Hk).
    reflexivity.
Qed.

(** The text of a recipe begins with a line break, so it is none of the
    fixed replies. *)
Lemma markdown_text_is_no_found_reply
  (self : MarkdownRecipeFormatter) (recipe : Recipe.t) (n : nat) :
  transform_to_text self recipe <> found_reply n.
Proof.
  unfold transform_to_text, MarkdownRecipeFormatter_formatter,
    markdown_transform_to_text, found_reply, nl.
  cbn [String.append]. discriminate.
Qed.

End Rendering.

(** ** The system as [main] wires it *)

Section System.

Context `{Interpreter} `{LanguageModel} `{Network}.

Lemma count_occ_map_none {A} (f : A -> string) (l : list A) (y : string) :
  (forall x, f x <> y) -> count_occ string_dec (map f l) y = 0%nat.
Proof.
  intros Hf. induction l as [|x l IH]; [reflexivity|].
  cbn [map count_occ]. destruct (string_dec (f x) y) as [Heq|_];
    [destruct (Hf x Heq) | exact IH].
Qed.

(** X19: with the Markdown formatter, among the replies of a search that
    found [N > 0] recipes the text [Found N recipes for you] occurs exactly
    once, and the request adds [N + 2] replies in all. *)
Theorem found_reply_occurs_exactly_once
  {P : Type} `{RecipeProvider P}
  (self : Agent P MarkdownRecipeFormatter) (user_message : Message)
  (w w1 : World) (parsed : list (string * pyval))
  (recipes : list Recipe.t) (sent : list Request) :
  parse_user_message_with_retries user_message 3 w
  = (Return (PDict parsed), w1) ->
  capability_message (PDict parsed) = None ->
  fetch_recipes (recipe_provider self)
    (get_or parsed "query" (PStr ""))
    (get_or parsed "include_cuisines" (PList []))
    (get_or parsed "exclude_cuisines" (PList []))
    (get_or parsed "include_ingredients" (PList []))
    (get_or parsed "exclude_ingredients" (PList []))
    5 (http_requests w) = (Return recipes, sent) ->
  recipes <> [] ->
  steps_are_str recipes = true ->
  exists added,
    replies (snd (run self user_message w)) = replies w ++ added
    /\ count_occ string_dec added (found_reply (length recipes)) = 1%nat
    /\ length added = (length recipes + 2)%nat.
Proof.
  intros Hparse Hcap Hfetch Hne Hsteps.
  exists ([preparing_reply; found_reply (length recipes)]
          ++ map (transform_to_text (formatter self)) recipes).
  split; [|split].
  - apply (run_renders_recipes self user_message w w1 parsed recipes sent);
      assumption.
  - rewrite count_occ_app.
    rewrite (count_occ_map_none _ recipes _
               (fun recipe =>
                  markdown_text_is_no_found_reply (formatter self) recipe
                    (length recipes))).
    cbn [count_occ].
    destruct (string_dec preparing_reply (found_reply (length recipes)))
      as [Heq|_]; [discriminate Heq|].
    destruct (string_dec (found_reply (length recipes))
                         (found_reply (length recipes)))
      as [_|Hneq]; [reflexivity | destruct (Hneq eq_refl)].
  - rewrite length_app, length_map. cbn [length]. lia.
Qed.

(** X20: [main] does nothing but ask for input when there is no last
    message or when it is not from the user; and when the API key is
    missing it logs that and sends the configuration reply.  In neither
    case is the language model or the provider called. *)
Theorem main_guards (w : World) :
  (forall api_key, main None api_key w = (Return tt, asked_input w))
  /\ (forall message api_key,
         role message <> "user" ->
         main (Some message) api_key w = (Return tt, asked_input w))
  /\ (forall message,
         role message = "user" ->
         main (Some message) None w
         = (Return tt,
            replied configuration_reply
              (logged "Env variable SPOONACULAR_API_KEY is missing" None w))).
Proof.
  split; [|split].
  - intros api_key. reflexivity.
  - intros message api_key Hrole. unfold main.
    apply String.eqb_neq in Hrole. rewrite Hrole. reflexivity.
  - intros message Hrole. unfold main.
    apply String.eqb_eq in Hrole. rewrite Hrole. reflexivity.
Qed.

(** [main] is [run] on the agent it builds, or one of its guards. *)
Lemma main_cases (last_message : option Message) (api_key : option string)
  (w : World) :
  main last_message api_key w = (Return tt, asked_input w)
  \/ main last_message api_key w
     = (Return tt,
        replied configuration_reply
          (logged "Env variable SPOONACULAR_API_KEY is missing" None w))
  \/ exists message key,
       last_message = Some message /\ api_key = Some key
       /\ main last_message api_key w
          = run {| recipe_provider := SpoonacularRecipeProvider_new key;
                   formatter := MarkdownRecipeFormatter_new |} message w.
Proof.
  destruct last_message as [message|]; [|left; reflexivity].
  unfold main. destruct (String.eqb (role message) "user");
    [|left; reflexivity].
  cbn [negb]. destruct api_key as [key|].
  - right. right. exists message, key. repeat split; reflexivity.
  - right. left. reflexivity.
Qed.


(** X22: one run of [main] sends at most one request to the search API.
    When it sends one, it goes to the complex-search endpoint with the key
    of the environment, [number] 5 and the seven fixed options. *)
Theorem main_sends_at_most_one_request
  (last_message : option Message) (api_key : option string) (w : World) :
  http_requests (snd (main last_message api_key w)) = http_requests w
  \/ exists key request,
       api_key = Some key
       /\ http_requests (snd (main last_message api_key w))
          = http_requests w ++ [request]
       /\ url request = "https://api.spoonacular.com/recipes/complexSearch"
       /\ lookup "apiKey" (params request) = Some (PStr key)
       /\ lookup "number" (params request) = Some (PInt 5)
       /\ lookup "instructionsRequired" (params request) = Some (PStr "true")
       /\ lookup "addRecipeInformation" (params request) = Some (PStr "true")
       /\ lookup "addRecipeNutrition" (params request) = Some (PStr "false")
       /\ lookup "fillIngredients" (params request) = Some (PStr "true")
       /\ lookup "ignorePantry" (params request) = Some (PStr "true")
       /\ lookup "sort" (params request) = Some (PStr "calories")
       /\ lookup "sortDirection" (params request) = Some (PStr "desc").
Proof.
  destruct (main_cases last_message api_key w)
    as [Hm | [Hm | [message [key [_ [Hkey Hm]]]]]]; rewrite Hm.
  - left. reflexivity.
  - left. reflexivity.
  - destruct (run_frame
                {| recipe_provider := SpoonacularRecipeProvider_new key;
                   formatter := MarkdownRecipeFormatter_new |} message w)
      as [_ [_ [_ [_ [Hsame | [parsed [_ Hsent]]]]]]]; [left; exact Hsame|].
    cbn [recipe_provider] in Hsent.
    destruct (fetch_recipes_requests (SpoonacularRecipeProvider_new key)
                (get_or parsed "query" (PStr ""))
                (get_or parsed "include_cuisines" (PList []))
                (get_or parsed "exclude_cuisines" (PList []))
                (get_or parsed "include_ingredients" (PList []))
                (get_or parsed "exclude_ingredients" (PList []))
                5 (http_requests w)) as [Hnone | [c1 [c2 [c3 [c4 Hone]]]]].
    + left. rewrite Hsent. exact Hnone.
    + right. exists key. eexists. split; [exact Hkey|].
      split; [rewrite Hsent; exact Hone|].
      repeat split; reflexivity.
Qed.

End System.

Lemma ill_typed_filter_raises_before_the_request_witness :
  @fetch_recipes _
    (@SpoonacularRecipeProvider_provider demo_interpreter
       (served [Return pancakes_found]))
    demo_provider (PStr "pancakes") (PList []) (PList [])
    (PList [PStr "egg"; PInt 2]) (PList []) 5 []
  = (Raise TypeError, []).
Proof.
  exact (@ill_typed_filter_raises_before_the_request
           demo_interpreter (served [Return pancakes_found])
           demo_provider (PStr "pancakes") (PList []) (PList [])
           (PList [PStr "egg"; PInt 2]) (PList []) 5 [] eq_refl).
Defined.

Lemma transport_error_leaves_fetch_recipes_witness :
  demo_fetch [Raise (OtherError "ConnectionError" "refused")]
  = (Raise (OtherError "ConnectionError" "refused"),
     [request_for demo_provider (PStr "pancakes") [] [] ["egg"; "milk"] [] 5]).
Proof.
  exact (@transport_error_leaves_fetch_recipes
           demo_interpreter
           (served [Raise (OtherError "ConnectionError" "refused")])
           demo_provider (PStr "pancakes") [] [] ["egg"; "milk"] [] 5 []
           _ eq_refl).
Defined.

Lemma undecodable_body_raises_whatever_the_status_witness :
  fst (demo_fetch [Return garbled_ok])
  = Raise (JSONDecodeError "Expecting value: line 1 column 1 (char 0)").
Proof.
  unfold demo_fetch.
  rewrite (@undecodable_body_raises_whatever_the_status
             demo_interpreter (served [Return garbled_ok])
             demo_provider (PStr "pancakes") [] [] ["egg"; "milk"] [] 5 []
             garbled_ok _ eq_refl eq_refl).
  reflexivity.
Defined.

Lemma body_that_is_no_object_raises_AttributeError_witness :
  fst (demo_fetch [Return listing]) = Raise AttributeError.
Proof.
  unfold demo_fetch.
  rewrite (@body_that_is_no_object_raises_AttributeError
             demo_interpreter (served [Return listing])
             demo_provider (PStr "pancakes") [] [] ["egg"; "milk"] [] 5 []
             listing (PList []) eq_refl eq_refl eq_refl).
  reflexivity.
Defined.

Lemma results_that_cannot_be_iterated_raise_TypeError_witness :
  fst (demo_fetch [Return null_results]) = Raise TypeError.
Proof.
  exact (@results_that_cannot_be_iterated_raise_TypeError
           demo_interpreter (served [Return null_results])
           demo_provider (PStr "pancakes") [] [] ["egg"; "milk"] [] 5 []
           null_results _ PNone eq_refl eq_refl eq_refl eq_refl eq_refl).
Defined.

Lemma later_instruction_groups_are_never_read_witness :
  build_recipe (PDict (waffle_fields [batter_group; syrup_group]))
  = build_recipe (PDict (waffle_fields [batter_group])).
Proof.
  apply (later_instruction_groups_are_never_read
           (waffle_fields [batter_group; syrup_group])
           (waffle_fields [batter_group]) batter_group [syrup_group] []).
  - intros key Hkey. unfold waffle_fields. cbn [lookup].
    repeat match goal with
           | |- context [String.eqb ?k key] =>
               destruct (String.eqb_spec k key)
           end; try reflexivity.
    subst key. destruct (Hkey eq_refl).
  - reflexivity.
  - reflexivity.
Defined.

Lemma no_recipes_gets_the_be_more_specific_reply_witness :
  fst (demo_run [Return "{}"] [Return nothing_found]) = Return tt
  /\ replies (snd (demo_run [Return "{}"] [Return nothing_found]))
     = [preparing_reply; no_recipes_reply].
Proof.
  assert (Hparse : demo_parse [Return "{}"]
                   = (Return (PDict []), snd (demo_parse [Return "{}"])))
    by (vm_compute; reflexivity).
  exact (@no_recipes_gets_the_be_more_specific_reply
           demo_interpreter (scripted [Return "{}"]) _ _
           (@SpoonacularRecipeProvider_provider demo_interpreter
              (served [Return nothing_found]))
           (@MarkdownRecipeFormatter_formatter demo_interpreter)
           demo_agent hello empty_world _ []
           [request_for demo_provider (PStr "") [] [] [] [] 5]
           Hparse eq_refl eq_refl).
Defined.

Lemma exhausted_retries_get_please_try_again_witness :
  replies (snd (@run demo_interpreter chatty_model _ _
                  (@SpoonacularRecipeProvider_provider demo_interpreter
                     (served []))
                  (@MarkdownRecipeFormatter_formatter demo_interpreter)
                  demo_agent hello empty_world))
  = [try_again_reply].
Proof.
  assert (Hall : forall n : nat, exists c,
             @completion chatty_model n (prompt hello) = Return c
             /\ @malformed demo_interpreter c = true)
    by (intros n; exists not_json; split; reflexivity).
  destruct (@exhausted_retries_get_please_try_again
              demo_interpreter chatty_model _ _
              (@SpoonacularRecipeProvider_provider demo_interpreter
                 (served []))
              (@MarkdownRecipeFormatter_formatter demo_interpreter)
              demo_agent hello empty_world Hall) as [_ [Hreplies _]].
  exact Hreplies.
Defined.

Lemma parsed_value_that_is_no_object_gets_the_apology_witness :
  replies (snd (demo_run [Return "null"] [])) = [went_wrong_reply]
  /\ http_requests (snd (demo_run [Return "null"] [])) = [].
Proof.
  assert (Hparse : demo_parse [Return "null"]
                   = (Return PNone, snd (demo_parse [Return "null"])))
    by (vm_compute; reflexivity).
  destruct (@parsed_value_that_is_no_object_gets_the_apology
              demo_interpreter (scripted [Return "null"]) _ _
              (@SpoonacularRecipeProvider_provider demo_interpreter
                 (served []))
              (@MarkdownRecipeFormatter_formatter demo_interpreter)
              demo_agent hello empty_world _ PNone Hparse eq_refl)
    as [_ [Hreplies Hrequests]].
  split; [exact Hreplies | exact Hrequests].
Defined.

Lemma recipes_with_a_step_that_is_no_string_get_the_apology_witness :
  replies (snd (demo_run [Return "{}"] [Return porridge_found]))
  = [preparing_reply; went_wrong_reply].
Proof.
  assert (Hparse : demo_parse [Return "{}"]
                   = (Return (PDict []), snd (demo_parse [Return "{}"])))
    by (vm_compute; reflexivity).
  destruct (@recipes_with_a_step_that_is_no_string_get_the_apology
              demo_interpreter (scripted [Return "{}"]) _ _
              (@SpoonacularRecipeProvider_provider demo_interpreter
                 (served [Return porridge_found]))
              (@MarkdownRecipeFormatter_formatter demo_interpreter)
              demo_agent hello empty_world _ [] [porridge]
              [request_for demo_provider (PStr "") [] [] [] [] 5]
              Hparse eq_refl eq_refl eq_refl) as [_ Hreplies].
  exact Hreplies.
Defined.

Lemma found_reply_occurs_exactly_once_witness :
  exists added,
    replies (snd (demo_run [Return "{}"] [Return pancakes_found])) = added
    /\ count_occ string_dec added "Found 1 recipes for you" = 1%nat
    /\ length added = 3%nat.
Proof.
  assert (Hparse : demo_parse [Return "{}"]
                   = (Return (PDict []), snd (demo_parse [Return "{}"])))
    by (vm_compute; reflexivity).
  assert (Hne : [pancakes] <> []) by discriminate.
  destruct (@found_reply_occurs_exactly_once
              demo_interpreter (scripted [Return "{}"]) _
              (@SpoonacularRecipeProvider_provider demo_interpreter
                 (served [Return pancakes_found]))
              demo_agent hello empty_world _ [] [pancakes]
              [request_for demo_provider (PStr "") [] [] [] [] 5]
              Hparse eq_refl eq_refl Hne eq_refl)
    as [added [Hreplies [Hcount Hlength]]].
  exists added. split; [exact Hreplies|]. split; [exact Hcount | exact Hlength].
Defined.

(** ** The log, and what reaches the provider *)

Section LogAndRequests.

Context `{Interpreter} `{LanguageModel}.

Lemma parse_user_message_log (message : Message) (w : World) :
  exists added,
    agent_log (snd (parse_user_message message w)) = agent_log w ++ added
    /\ filter is_error_record added = [].
Proof.
  destruct (completion (length (lm_calls w)) (prompt message)) as [c|e] eqn:Hc.
  - rewrite (parse_user_message_return _ _ _ Hc).
    exists [{| text := c; level := None |}]. split; reflexivity.
  - rewrite (parse_user_message_raise _ _ _ Hc).
    exists []. cbn. rewrite app_nil_r. split; reflexivity.
Qed.

Lemma retry_loop_log (message : Message) (attempts : Z) (todo : list Z) :
  forall w,
    exists added,
      agent_log (snd (retry_loop message attempts todo w))
      = agent_log w ++ added
      /\ filter is_error_record added = [].
Proof.
  induction todo as [|attempt todo IH]; intros w.
  - exists []. cbn. rewrite app_nil_r. split; reflexivity.
  - rewrite retry_loop_cons.
    destruct (parse_user_message_log message (announced (attempt + 1) w))
      as [added1 [Hlog1 Hnone1]].
    destruct (parse_user_message message (announced (attempt + 1) w))
      as [[v|e] w']; cbn [snd] in *.
    + eexists. split.
      * rewrite Hlog1. cbn [announced logged agent_log].
        rewrite <- app_assoc. reflexivity.
      * cbn [app filter is_error_record level]. exact Hnone1.
    + destruct (is_JSONDecodeError e && (attempt <? attempts - 1)).
      * destruct (IH w') as [added2 [Hlog2 Hnone2]].
        eexists. split.
        -- rewrite Hlog2, Hlog1. cbn [announced logged agent_log].
           rewrite <- !app_assoc. reflexivity.
        -- cbn [app filter is_error_record level].
           rewrite filter_app, Hnone1, Hnone2. reflexivity.
      * eexists. split.
        -- cbn [snd]. rewrite Hlog1. cbn [announced logged agent_log].
           rewrite <- app_assoc. reflexivity.
        -- cbn [app filter is_error_record level]. exact Hnone1.
Qed.

(** X23: the completions are logged as they arrive, before they are
    decoded: after two malformed completions and a third one, whatever it
    is, the log holds the three announcements and the three completions in
    order, the malformed ones included. *)
Theorem completions_are_logged_even_when_malformed
  (message : Message) (w : World) (c1 c2 c3 : string) :
  let n := length (lm_calls w) in
  completion n (prompt message) = Return c1 ->
  completion (S n) (prompt message) = Return c2 ->
  completion (S (S n)) (prompt message) = Return c3 ->
  malformed c1 = true ->
  malformed c2 = true ->
  agent_log (snd (parse_user_message_with_retries message 3 w))
  = agent_log w
    ++ [{| text := "Attempt #1 to parse user message"; level := Some DEBUG |};
        {| text := c1; level := None |};
        {| text := "Attempt #2 to parse user message"; level := Some DEBUG |};
        {| text := c2; level := None |};
        {| text := "Attempt #3 to parse user message"; level := Some DEBUG |};
        {| text := c3; level := None |}].
Proof.
  intros n H1 H2 H3 M1 M2. subst n.
  unfold parse_user_message_with_retries.
  change (range 3) with [0; 1; 2].
  rewrite (retry_loop_malformed message 3 0 _ w c1 H1 M1) by lia.
  rewrite (retry_loop_malformed message 3 1 _ _ c2) by
    (try rewrite attempt_lm_count; try assumption; lia).
  rewrite (retry_loop_last message 3 2 _ _ c3) by
    (try rewrite !attempt_lm_count; try assumption; lia).
  cbn [snd logged called announced agent_log].
  rewrite <- !app_assoc. reflexivity.
Qed.

Context {P F : Type} `{RecipeProvider P} `{RecipeFormatter F}.

Lemma for_each_add_reply_log {A} (text_of : A -> string) (l : list A) :
  forall w,
    agent_log (snd (for_each l (fun x => add_reply (text_of x)) w))
    = agent_log w.
Proof.
  induction l as [|x l IH]; intros w; [reflexivity|].
  cbn [for_each]. unfold bind, add_reply at 1. rewrite IH. reflexivity.
Qed.

(** [__run] itself never logs at [ERROR]. *)
Lemma __run_log (self : Agent P F) (user_message : Message) (w : World) :
  exists added,
    agent_log (snd (__run self user_message w)) = agent_log w ++ added
    /\ filter is_error_record added = [].
Proof.
  destruct (retry_loop_log user_message 3 (range 3) w) as [added1 [Hlog Hnone]].
  fold (parse_user_message_with_retries user_message 3 w) in Hlog.
  destruct (parse_user_message_with_retries user_message 3 w)
    as [[parsed|e] w1] eqn:Hparse; cbn [snd] in Hlog.
  - destruct (capability_message parsed) as [message|] eqn:Hcap.
    + destruct parsed as [| | | | | |d]; try discriminate.
      unfold capability_message in Hcap.
      destruct (lookup "message" d) as [[| | | |m| |]|] eqn:Hm;
        try discriminate.
      rewrite (__run_capability self user_message w w1 d m Hparse Hm).
      eexists. cbn [snd replied logged agent_log]. rewrite Hlog.
      split; [rewrite <- app_assoc; reflexivity|].
      rewrite filter_app, Hnone. reflexivity.
    + destruct parsed as [| | | | | |d].
      1-6: (rewrite (__run_not_object self user_message w w1 _ Hparse eq_refl);
            eexists; cbn [snd logged agent_log]; rewrite Hlog;
            split; [rewrite <- app_assoc; reflexivity|];
            rewrite filter_app, Hnone; reflexivity).
      rewrite (__run_search self user_message w w1 d Hparse Hcap).
      cbv zeta.
      destruct (fetch_recipes _ _ _ _ _ _ _ _) as [[recipes|e1] sent].
      * destruct (fetched_log recipes) as [log|e2].
        -- destruct (length recipes =? 0)%nat.
           ++ eexists. cbn [snd replied logged with_requests agent_log].
              rewrite Hlog.
              split; [rewrite <- !app_assoc; reflexivity|].
              rewrite filter_app, Hnone. reflexivity.
           ++ rewrite for_each_add_reply_log.
              eexists. cbn [snd replied logged with_requests agent_log].
              rewrite Hlog.
              split; [rewrite <- !app_assoc; reflexivity|].
              rewrite filter_app, Hnone. reflexivity.
        -- eexists. cbn [snd replied logged with_requests agent_log].
           rewrite Hlog.
           split; [rewrite <- app_assoc; reflexivity|].
           rewrite filter_app, Hnone. reflexivity.
      * eexists. cbn [snd replied logged with_requests agent_log].
        rewrite Hlog.
        split; [rewrite <- app_assoc; reflexivity|].
        rewrite filter_app, Hnone. reflexivity.
  - rewrite (__run_parse_raises self user_message w w1 e Hparse).
    exists added1. split; [exact Hlog | exact Hnone].
Qed.

(** X24: [run] keeps the log that was there and writes at [ERROR] exactly
    when the request failed: one [ERROR] record with [str(error)], the last
    of the log, when [__run] raised, and none when it did not. *)
Theorem error_is_logged_exactly_when_the_request_fails
  (self : Agent P F) (user_message : Message) (w : World) :
  exists added,
    agent_log (snd (run self user_message w)) = agent_log w ++ added
    /\ match fst (__run self user_message w) with
       | Return _ => filter is_error_record added = []
       | Raise e =>
           filter is_error_record added
           = [{| text := exn_str e; level := Some ERROR |}]
           /\ exists before,
                added = before ++ [{| text := exn_str e;
                                      level := Some ERROR |}]
       end.
Proof.
  destruct (__run_log self user_message w) as [added [Hlog Hnone]].
  rewrite run_handles.
  destruct (__run self user_message w) as [[a|e] w'];
    cbn [fst snd] in *.
  - exists added. split; assumption.
  - exists (added ++ [{| text := exn_str e; level := Some ERROR |}]).
    cbn [replied logged agent_log]. rewrite Hlog, <- app_assoc.
    split; [reflexivity|]. split.
    + rewrite filter_app, Hnone. reflexivity.
    + exists added. reflexivity.
Qed.

(** On the search path the requests after [run] are those the one provider
    call left. *)
Lemma run_search_requests (self : Agent P F) (user_message : Message)
  (w w1 : World) (parsed : list (string * pyval)) :
  parse_user_message_with_retries user_message 3 w
  = (Return (PDict parsed), w1) ->
  capability_message (PDict parsed) = None ->
  http_requests (snd (run self user_message w))
  = snd (fetch_recipes (recipe_provider self)
           (get_or parsed "query" (PStr ""))
           (get_or parsed "include_cuisines" (PList []))
           (get_or parsed "exclude_cuisines" (PList []))
           (get_or parsed "include_ingredients" (PList []))
           (get_or parsed "exclude_ingredients" (PList []))
           5 (http_requests w)).
Proof.
  intros Hparse Hcap.
  pose proof (parse_with_retries_quiet user_message 3 w) as [_ Hh].
  rewrite Hparse in Hh. cbn [snd] in Hh.
  rewrite run_handles, (__run_search self user_message w w1 parsed Hparse Hcap).
  cbv zeta. rewrite Hh.
  destruct (fetch_recipes _ _ _ _ _ _ _ _) as [[recipes|e1] sent].
  - destruct (fetched_log recipes) as [log|e2]; [|reflexivity].
    destruct (length recipes =? 0)%nat; [reflexivity|].
    match goal with
    | |- context [for_each ?l ?body ?w0] =>
        destruct (for_each_add_reply (transform_to_text (formatter self)) l w0)
          as [w' [Hrun [_ [Hreq _]]]]
    end.
    rewrite Hrun. cbn [snd]. rewrite Hreq. reflexivity.
  - reflexivity.
Qed.

End LogAndRequests.

Section SearchRequests.

Context `{Interpreter} `{LanguageModel} `{Network}.
Context {F : Type} `{RecipeFormatter F}.

(** X25: [fetch_recipes] returns recipes only from an answer with status
    200 whose body is a JSON object: whatever the filters are, a normal
    return means that one request was sent and answered so. *)
Theorem recipes_are_returned_only_on_status_200
  (self : SpoonacularRecipeProvider) (query f1 f2 f3 f4 : pyval)
  (max_amount : Z) (sent : list Request) (recipes : list Recipe.t) :
  fst (fetch_recipes self query f1 f2 f3 f4 max_amount sent) = Return recipes ->
  exists request response body,
    snd (fetch_recipes self query f1 f2 f3 f4 max_amount sent)
    = sent ++ [request]
    /\ requests_get (length sent) request = Return response
    /\ status_code response = 200
    /\ json response = Return (PDict body).
Proof.
  intros Hret.
  destruct (returned (py_join "," f1) && returned (py_join "," f2)
            && returned (py_join "," f3) && returned (py_join "," f4))
    eqn:Hjoins.
  - destruct (py_join "," f1) as [c1|] eqn:J1; [|discriminate].
    destruct (py_join "," f2) as [c2|] eqn:J2; [|discriminate].
    destruct (py_join "," f3) as [c3|] eqn:J3; [|discriminate].
    destruct (py_join "," f4) as [c4|] eqn:J4; [|discriminate].
    rewrite (fetch_recipes_sends_joined self query f1 f2 f3 f4 c1 c2 c3 c4
               max_amount sent J1 J2 J3 J4) in *.
    cbn [fst snd] in *. unfold read_response in Hret.
    destruct (requests_get (length sent) _) as [response|e] eqn:Hget;
      [|discriminate].
    cbn [obind] in Hret.
    destruct (json response) as [body|e] eqn:Hjson; [|discriminate].
    cbn [obind] in Hret.
    destruct (status_code response =? 200) eqn:Hstatus.
    + destruct body as [| | | | | |d]; try discriminate.
      eexists. exists response, d. split; [reflexivity|].
      split; [exact Hget|]. split; [|exact Hjson].
      apply Z.eqb_eq. exact Hstatus.
    + destruct (py_get body "message" (PStr "Unknown error")); discriminate.
  - rewrite (fetch_recipes_join_fails _ _ _ _ _ _ _ _ Hjoins) in Hret.
    discriminate.
Qed.

(** X26: what the parse step found reaches the search API under the right
    names: [query] as [query], [include_cuisines] as [cuisine],
    [exclude_cuisines] as [excludeCuisine], [include_ingredients] as
    [includeIngredients] and [exclude_ingredients] as
    [excludeIngredients], each list comma-joined, an absent key as the
    empty string; and [number] is 5. *)
Theorem parsed_filters_reach_their_parameters
  (self : Agent SpoonacularRecipeProvider F) (user_message : Message)
  (w w1 : World) (parsed : list (string * pyval))
  (ic ec ii ei : list string) :
  parse_user_message_with_retries user_message 3 w
  = (Return (PDict parsed), w1) ->
  capability_message (PDict parsed) = None ->
  get_or parsed "include_cuisines" (PList []) = str_list ic ->
  get_or parsed "exclude_cuisines" (PList []) = str_list ec ->
  get_or parsed "include_ingredients" (PList []) = str_list ii ->
  get_or parsed "exclude_ingredients" (PList []) = str_list ei ->
  exists request,
    http_requests (snd (run self user_message w))
    = http_requests w ++ [request]
    /\ lookup "query" (params request)
       = Some (get_or parsed "query" (PStr ""))
    /\ lookup "cuisine" (params request)
       = Some (PStr (String.concat "," ic))
    /\ lookup "excludeCuisine" (params request)
       = Some (PStr (String.concat "," ec))
    /\ lookup "includeIngredients" (params request)
       = Some (PStr (String.concat "," ii))
    /\ lookup "excludeIngredients" (params request)
       = Some (PStr (String.concat "," ei))
    /\ lookup "number" (params request) = Some (PInt 5).
Proof.
  intros Hparse Hcap Hic Hec Hii Hei.
  rewrite (run_search_requests self user_message w w1 parsed Hparse Hcap).
  rewrite Hic, Hec, Hii, Hei, fetch_recipes_sends. cbn [snd].
  eexists. split; [reflexivity|]. repeat split; reflexivity.
Qed.

End SearchRequests.

Lemma completions_are_logged_even_when_malformed_witness :
  agent_log (snd (@parse_user_message_with_retries demo_interpreter
                    flaky_model hello 3 empty_world))
  = [{| text := "Attempt #1 to parse user message"; level := Some DEBUG |};
     {| text := not_json; level := None |};
     {| text := "Attempt #2 to parse user message"; level := Some DEBUG |};
     {| text := not_json; level := None |};
     {| text := "Attempt #3 to parse user message"; level := Some DEBUG |};
     {| text := "{}"; level := None |}].
Proof.
  exact (@completions_are_logged_even_when_malformed
           demo_interpreter flaky_model hello empty_world
           not_json not_json "{}" eq_refl eq_refl eq_refl eq_refl eq_refl).
Defined.

Lemma recipes_are_returned_only_on_status_200_witness :
  exists request response body,
    snd (demo_fetch [Return pancakes_found]) = [] ++ [request]
    /\ @requests_get (served [Return pancakes_found]) 0 request
       = Return response
    /\ status_code response = 200
    /\ json response = Return (PDict body).
Proof.
  assert (Hret : fst (demo_fetch [Return pancakes_found]) = Return [pancakes])
    by (vm_compute; reflexivity).
  exact (@recipes_are_returned_only_on_status_200
           demo_interpreter (served [Return pancakes_found])
           demo_provider (PStr "pancakes") (str_list []) (str_list [])
           (str_list ["egg"; "milk"]) (str_list []) 5 [] [pancakes] Hret).
Defined.

Lemma parsed_filters_reach_their_parameters_witness :
  exists request,
    http_requests (snd (demo_run [Return "{}"] [Return pancakes_found]))
    = [request]
    /\ lookup "includeIngredients" (params request) = Some (PStr "")
    /\ lookup "number" (params request) = Some (PInt 5).
Proof.
  assert (Hparse : demo_parse [Return "{}"]
                   = (Return (PDict []), snd (demo_parse [Return "{}"])))
    by (vm_compute; reflexivity).
  destruct (@parsed_filters_reach_their_parameters
              demo_interpreter (scripted [Return "{}"])
              (served [Return pancakes_found]) _
              (@MarkdownRecipeFormatter_formatter demo_interpreter)
              demo_agent hello empty_world _ [] [] [] [] []
              Hparse eq_refl eq_refl eq_refl eq_refl eq_refl)
    as [request [Hsent [_ [_ [_ [Hii [_ Hnumber]]]]]]].
  exists request. split; [exact Hsent|]. split; [exact Hii | exact Hnumber].
Defined.

Lemma string_filter_is_joined_by_character_witness :
  exists request,
    snd (@fetch_recipes _
           (@SpoonacularRecipeProvider_provider demo_interpreter
              (served [Return pancakes_found]))
           demo_provider (PStr "pancakes") (PStr "日本") (str_list [])
           (PStr "egg") (str_list ["nuts"]) 5 [])
    = [request]
    /\ lookup "cuisine" (params request) = Some (PStr "日,本")
    /\ lookup "includeIngredients" (params request) = Some (PStr "e,g,g")
    /\ lookup "excludeIngredients" (params request) = Some (PStr "nuts").
Proof.
  exists {| url := API_URL demo_provider;
            params := request_params demo_provider (PStr "pancakes")
                        "日,本" "" "e,g,g" "nuts" 5 |}.
  destruct (@string_filter_is_joined_by_character
              demo_interpreter (served [Return pancakes_found])
              demo_provider (PStr "pancakes") (PStr "日本") (str_list [])
              (PStr "egg") (str_list ["nuts"]) 5 []
              {| url := API_URL demo_provider;
                 params := request_params demo_provider (PStr "pancakes")
                             "日,本" "" "e,g,g" "nuts" 5 |}
              eq_refl) as [Hcuisine [_ [Hingredients _]]].
  split; [reflexivity|]. split; [exact (Hcuisine "日本" eq_refl)|].
  split; [exact (Hingredients "egg" eq_refl) | reflexivity].
Defined.
